(** * callme: RPC over a publish/subscribe transport

    A shallow embedding of [callme/proxy.py] and [callme/server.py].

    Python objects that travel through the code are modelled by [value]
    (plain data), [body] (a deserialized message body) and [pyobj] (what may
    be handed to [register_function]).  Every method of the source becomes a
    computation in the monad [M]: it threads the object it mutates ([self]),
    logs the calls made on the transport, and ends by returning, by raising
    a Python exception, or blocked inside [drain_events] when the script of
    the environment is exhausted. *)

From Stdlib Require Import QArith Lqa.
From stdpp Require Import base option list strings gmap.

Set Warnings "-register-all".
Close Scope Q_scope.
Open Scope string_scope.
Open Scope list_scope.

(** ** Python values *)

(** The exception classes the code names, raises or meets.  The last three
    derive from [BaseException] only; all others derive from [Exception]. *)
Inductive exc_class :=
| KeyError
| TypeError
| ValueError
| AttributeError
| IOError
| socket_timeout
| queue_Empty
| RpcTimeout
| RemoteException
| UserException (name : string)
| SystemExit
| KeyboardInterrupt
| GeneratorExit.

Inductive value :=
| VNone
| VInt (n : Z)
| VStr (s : string)
| VTuple (vs : list value)
| VDict (items : list (string * value))
| VExc (cls : exc_class) (args : list value).

(** An exception in flight: its class and the arguments it was built with. *)
Definition exn : Type := exc_class * list value.

Definition exc_class_eqb (a b : exc_class) : bool :=
  match a, b with
  | KeyError, KeyError | TypeError, TypeError | ValueError, ValueError
  | AttributeError, AttributeError | IOError, IOError
  | socket_timeout, socket_timeout | queue_Empty, queue_Empty
  | RpcTimeout, RpcTimeout | RemoteException, RemoteException
  | SystemExit, SystemExit | KeyboardInterrupt, KeyboardInterrupt
  | GeneratorExit, GeneratorExit => true
  | UserException n, UserException n' => String.eqb n n'
  | _, _ => false
  end.

(** [isinstance(e, Exception)]: what a clause [except Exception] catches. *)
Definition is_Exception (e : exn) : bool :=
  match e.1 with
  | SystemExit | KeyboardInterrupt | GeneratorExit => false
  | _ => true
  end.

(** [isinstance(e, socket.timeout)]. *)
Definition is_socket_timeout (e : exn) : bool := exc_class_eqb e.1 socket_timeout.

(** The outcome of calling a Python function. *)
Inductive outcome :=
| Returns (v : value)
| Raises (e : exn).

(** What can be passed where the code expects a function. *)
Inductive pyobj :=
| Data (v : value)
| Function (__name__ : string) (code : list value -> outcome)
| CallableObject (code : list value -> outcome).

(** ** Messages *)

(** A deserialized message body.  [RpcRequest] and [RpcResponse] stand for
    instances of the classes of [callme.protocol]. *)
Inductive body :=
| Plain (v : value)
| RpcRequest (func_name : string) (func_args : list value)
| RpcResponse (result : value).

(** A [kombu] message, as far as the code looks into it. *)
Record Message := { properties : gmap string value }.

(** The item type of the server's result queue. *)
Record ResultSet := {
  rpc_resp : body;
  correlation_id : value;
  reply_to : value
}.

(** ** Calls on the outside world, in the order they happen *)
Inductive effect :=
| Ack (message : Message)
| Publish (exchange : value) (b : body) (props : gmap string value)
| Call (func_name : string) (args : list value)
| ThreadStart (name : value) (func_name : string) (func_args : list value)
    (message : Message)
| QueuePut (rs : ResultSet)
| PublisherStart
| PublisherStop
| ConsumerCancel
| ConnectionClose
| PublishConnectionClose.

(** ** The monad of methods *)

Inductive result (A : Type) :=
| Return (a : A)
| Raise (e : exn)
| Blocked.
Arguments Return {A} a.
Arguments Raise {A} e.
Arguments Blocked {A}.

Definition M (S A : Type) : Type := S -> list effect * S * result A.

Definition ret {S A} (a : A) : M S A := fun s => ([], s, Return a).

Definition bind {S A B} (m : M S A) (k : A -> M S B) : M S B :=
  fun s =>
    match m s with
    | (tr, s', Return a) =>
        match k a s' with
        | (tr', s'', r) => (tr ++ tr', s'', r)
        end
    | (tr, s', Raise e) => (tr, s', Raise e)
    | (tr, s', Blocked) => (tr, s', Blocked)
    end.

Notation "'let*' x ':=' m 'in' k" := (bind m (fun x => k))
  (at level 10, x name, m at level 100, k at level 200).
Notation "m ';;;' k" := (bind m (fun _ => k))
  (at level 100, k at level 200, right associativity).

Definition raise {S A} (e : exn) : M S A := fun s => ([], s, Raise e).
Definition blocked {S A} : M S A := fun s => ([], s, Blocked).
Definition emit {S} (e : effect) : M S unit := fun s => ([e], s, Return tt).
Definition get {S} : M S S := fun s => ([], s, Return s).
Definition modify {S} (f : S -> S) : M S unit := fun s => ([], f s, Return tt).

(** [try: m  except <classes accepted by catches> as e: handler e]. *)
Definition try_except {S A} (m : M S A) (catches : exn -> bool)
    (handler : exn -> M S A) : M S A :=
  fun s =>
    match m s with
    | (tr, s', Raise e) =>
        if catches e then
          match handler e s' with
          | (tr', s'', r) => (tr ++ tr', s'', r)
          end
        else (tr, s', Raise e)
    | r => r
    end.

Definition trace {S A} (r : list effect * S * result A) : list effect := r.1.1.
Definition final {S A} (r : list effect * S * result A) : S := r.1.2.
Definition answer {S A} (r : list effect * S * result A) : result A := r.2.

(** [d[key]] on a dictionary of properties. *)
Definition getitem {S} (d : gmap string value) (key : string) : M S value :=
  match d !! key with
  | Some v => ret v
  | None => raise (KeyError, [VStr key])
  end.

(** First binding of [key] in the items of a dictionary value. *)
Fixpoint items_lookup (items : list (string * value)) (key : string) : option value :=
  match items with
  | [] => None
  | (k, v) :: rest => if String.eqb k key then Some v else items_lookup rest key
  end.

(** [b[key]] on a message body: only dictionaries can be subscripted by a
    string. *)
Definition subscript {S} (b : body) (key : string) : M S value :=
  match b with
  | Plain (VDict items) =>
      match items_lookup items key with
      | Some v => ret v
      | None => raise (KeyError, [VStr key])
      end
  | _ => raise (TypeError, [VStr "object is not subscriptable"])
  end.

(** [v == c] for a string constant [c]. *)
Definition eq_str (v : value) (c : string) : bool :=
  match v with
  | VStr s => String.eqb s c
  | _ => false
  end.

(** One call of [drain_events(timeout=1)], as the environment decides it:
    a message is handed to the consumer callback, or an exception comes out
    of the transport ([socket.timeout] when the second passed in silence). *)
Inductive drain_event :=
| Delivered (b : body) (message : Message)
| Fails (e : exn).

(** ** proxy.py *)

Module Proxy.

Record t := {
  _server_id : string;
  _timeout : Q;
  _is_received : bool;
  _reply_id : string;
  _corr_id : option string;
  response : body
}.

Definition set_server_id (x : string) (self : t) : t :=
  {| _server_id := x; _timeout := _timeout self;
     _is_received := _is_received self; _reply_id := _reply_id self;
     _corr_id := _corr_id self; response := response self |}.
Definition set_timeout (x : Q) (self : t) : t :=
  {| _server_id := _server_id self; _timeout := x;
     _is_received := _is_received self; _reply_id := _reply_id self;
     _corr_id := _corr_id self; response := response self |}.
Definition set_is_received (x : bool) (self : t) : t :=
  {| _server_id := _server_id self; _timeout := _timeout self;
     _is_received := x; _reply_id := _reply_id self;
     _corr_id := _corr_id self; response := response self |}.
Definition set_corr_id (x : option string) (self : t) : t :=
  {| _server_id := _server_id self; _timeout := _timeout self;
     _is_received := _is_received self; _reply_id := _reply_id self;
     _corr_id := x; response := response self |}.
Definition set_response (x : body) (self : t) : t :=
  {| _server_id := _server_id self; _timeout := _timeout self;
     _is_received := _is_received self; _reply_id := _reply_id self;
     _corr_id := _corr_id self; response := x |}.

(** [Proxy(server_id, amqp_user=..., timeout=...)]; [my_uuid] is what
    [utils.gen_unique_id()] drew. *)
Definition __init__ (server_id amqp_user my_uuid : string) (timeout : Q) : t :=
  {| _server_id := server_id; _timeout := timeout; _is_received := false;
     _reply_id := "client_" +:+ amqp_user +:+ "_ex_" +:+ my_uuid;
     _corr_id := None; response := Plain VNone |}.

(** [self._corr_id == v]: the left operand is [None] or a string. *)
Definition corr_id_eq (c : option string) (v : value) : bool :=
  match c, v with
  | None, VNone => true
  | Some s, VStr s' => String.eqb s s'
  | _, _ => false
  end.

Definition _on_response (b : body) (message : Message) : M t unit :=
  let* self := get in
  let* cid := getitem (properties message) "correlation_id" in
  if corr_id_eq (_corr_id self) cid then
    modify (set_response b) ;;;
    modify (set_is_received true) ;;;
    emit (Ack message)
  else ret tt.

Definition use_server (server_id : option string) (timeout : option Q) : M t unit :=
  (match server_id with
   | Some x => modify (set_server_id x)
   | None => ret tt
   end) ;;;
  match timeout with
  | Some x => modify (set_timeout x)
  | None => ret tt
  end.

Definition Qltb (a b : Q) : bool := negb (Qle_bool b a).

Definition drain_events (ev : drain_event) : M t unit :=
  match ev with
  | Delivered b message => _on_response b message
  | Fails e => raise e
  end.

(** The loop of [_wait_for_result].  Each element of [script] is what one
    iteration meets: the outcome of [drain_events], and what [time.time()]
    reads if the handler of [socket.timeout] asks for it. *)
Fixpoint wait_loop (start_time elapsed : Q) (script : list (drain_event * Q))
    (self : t) {struct script} : list effect * t * result Q :=
  if _is_received self then ([], self, Return elapsed)
  else
    match script with
    | [] => ([], self, Blocked)
    | (ev, now) :: rest =>
        (let* elapsed' :=
           try_except (drain_events ev ;;; ret elapsed) is_socket_timeout
             (fun _ =>
                let* self := get in
                if Qltb 0 (_timeout self) then
                  let elapsed' := (now - start_time)%Q in
                  if Qltb (_timeout self) elapsed' then
                    raise (RpcTimeout, [VStr "RPC Request timeout"])
                  else ret elapsed'
                else ret elapsed) in
         wait_loop start_time elapsed' rest) self
    end.

(** [start_time] is the reading of [time.time()] on entry.  The value
    returned is the local [elapsed] when the loop is left. *)
Definition _wait_for_result (start_time : Q) (script : list (drain_event * Q)) : M t Q :=
  wait_loop start_time 0%Q script.

Section Request.

(** The status code [pr.ERROR] of [callme.protocol], a module that is not
    among the sources. *)
Variable ERROR : string.

(** [uuid4] is the string of the identifier [uuid.uuid4()] drew. *)
Definition __request (func_name : string) (func_args : list value)
    (uuid4 : string) (start_time : Q) (script : list (drain_event * Q)) : M t value :=
  let* self := get in
  let rpc_req :=
    Plain (VDict [("func_name", VStr func_name); ("func_args", VTuple func_args)]) in
  modify (set_corr_id (Some uuid4)) ;;;
  emit (Publish (VStr ("server_" +:+ _server_id self +:+ "_ex")) rpc_req
          (<["reply_to" := VStr (_reply_id self)]>
             (<["correlation_id" := VStr uuid4]> ∅))) ;;;
  _wait_for_result start_time script ;;;
  let* self := get in
  let* result := subscript (response self) "result" in
  modify (set_is_received false) ;;;
  let* status := subscript (response self) "status" in
  if eq_str status ERROR then raise (RemoteException, [result])
  else ret result.

End Request.

End Proxy.

(** [_Method(send, name)], for any kind of [send]. *)
Module _Method.

Record t (Send : Type) := {
  __send : Send;
  __name : string
}.
Arguments __send {Send} _.
Arguments __name {Send} _.

Definition __init__ {Send} (send : Send) (name : string) : t Send :=
  {| __send := send; __name := name |}.



End _Method.





Section AttributeAccess.

(** The names that every object has from its base class and from the class
    machinery ([__class__], [__dict__], [__doc__], ...); which they are
    depends on the version of Python. *)
Variable object_has : string -> bool.

Variable ERROR : string.







End AttributeAccess.

(** ** server.py *)

Module Server.

Record t := {
  _server_id : string;
  _threaded : bool;
  _do_run : bool;
  _is_stopped : bool;
  _func_dict : gmap string pyobj;
  _result_queue : list ResultSet
}.

Definition set_do_run (x : bool) (self : t) : t :=
  {| _server_id := _server_id self; _threaded := _threaded self;
     _do_run := x; _is_stopped := _is_stopped self;
     _func_dict := _func_dict self; _result_queue := _result_queue self |}.
Definition set_is_stopped (x : bool) (self : t) : t :=
  {| _server_id := _server_id self; _threaded := _threaded self;
     _do_run := _do_run self; _is_stopped := x;
     _func_dict := _func_dict self; _result_queue := _result_queue self |}.
Definition set_func_dict (x : gmap string pyobj) (self : t) : t :=
  {| _server_id := _server_id self; _threaded := _threaded self;
     _do_run := _do_run self; _is_stopped := _is_stopped self;
     _func_dict := x; _result_queue := _result_queue self |}.
Definition set_result_queue (x : list ResultSet) (self : t) : t :=
  {| _server_id := _server_id self; _threaded := _threaded self;
     _do_run := _do_run self; _is_stopped := _is_stopped self;
     _func_dict := _func_dict self; _result_queue := x |}.

Definition __init__ (server_id : string) (threaded : bool) : t :=
  {| _server_id := server_id; _threaded := threaded; _do_run := true;
     _is_stopped := true; _func_dict := ∅; _result_queue := [] |}.

(** [callable(func)]. *)
Definition callable (func : pyobj) : bool :=
  match func with
  | Data _ => false
  | Function _ _ | CallableObject _ => true
  end.

(** [self._func_dict[func_name]]. *)
Definition func_dict_getitem (func_name : string) : M t pyobj :=
  let* self := get in
  match _func_dict self !! func_name with
  | Some func => ret func
  | None => raise (KeyError, [VStr func_name])
  end.

(** [func(x, y, ...)] on the object found under [func_name]; the log
    records that the handler is entered. *)
Definition apply {S} (func_name : string) (func : pyobj) (args : list value) : M S value :=
  match func with
  | Function _ code | CallableObject code =>
      emit (Call func_name args) ;;;
      match code args with
      | Returns v => ret v
      | Raises e => raise e
      end
  | Data _ => raise (TypeError, [VStr "object is not callable"])
  end.

Definition _on_request (b : body) (message : Message) : M t unit :=
  match b with
  | RpcRequest func_name func_args =>
      let* rpc_resp :=
        try_except
          (getitem (properties message) "correlation_id" ;;;
           let* func := func_dict_getitem func_name in
           let* result := apply func_name func func_args in
           ret (RpcResponse result))
          is_Exception
          (fun e => ret (RpcResponse (VExc e.1 e.2))) in
      emit (Ack message) ;;;
      let* exchange := getitem (properties message) "reply_to" in
      let* cid := getitem (properties message) "correlation_id" in
      emit (Publish exchange rpc_resp (<["correlation_id" := cid]> ∅))
  | _ => ret tt
  end.

(** [result_queue.put(rs)]. *)
Definition queue_put (rs : ResultSet) : M t unit :=
  let* self := get in
  modify (set_result_queue (_result_queue self ++ [rs])) ;;;
  emit (QueuePut rs).

(** The body of a worker thread: the closure [exec_func] of
    [_on_request_threaded] for the request it was created for. *)
Definition exec_func (func_name : string) (func_args : list value)
    (message : Message) : M t unit :=
  let* rpc_resp :=
    try_except
      (getitem (properties message) "correlation_id" ;;;
       let* func := func_dict_getitem func_name in
       let* result := apply func_name func func_args in
       ret (RpcResponse result))
      is_Exception
      (fun e => ret (RpcResponse (VExc e.1 e.2))) in
  let* cid := getitem (properties message) "correlation_id" in
  let* rto := getitem (properties message) "reply_to" in
  queue_put {| rpc_resp := rpc_resp; correlation_id := cid; reply_to := rto |}.

Definition _on_request_threaded (b : body) (message : Message) : M t unit :=
  match b with
  | RpcRequest func_name func_args =>
      emit (Ack message) ;;;
      let* name := getitem (properties message) "correlation_id" in
      emit (ThreadStart name func_name func_args message)
  | _ => ret tt
  end.

Section RegisterFunction.

(** Python's built-in [str], left abstract. *)
Variable str : value -> string.

(** ["The '%s' is not callable." % func]: a tuple on the right of [%] is
    the argument list of the format, anything else its single argument. *)
Definition not_callable_message {S} (func : value) : M S string :=
  match func with
  | VTuple [v] => ret ("The '" +:+ str v +:+ "' is not callable.")
  | VTuple [] => raise (TypeError, [VStr "not enough arguments for format string"])
  | VTuple _ =>
      raise (TypeError, [VStr "not all arguments converted during string formatting"])
  | _ => ret ("The '" +:+ str func +:+ "' is not callable.")
  end.

(** [func.__name__]. *)
Definition getattr___name__ {S} (func : pyobj) : M S string :=
  match func with
  | Function name _ => ret name
  | _ => raise (AttributeError, [VStr "__name__"])
  end.

Definition register_function (func : pyobj) (name : option string) : M t unit :=
  match func with
  | Data v =>
      let* msg := not_callable_message v in
      raise (ValueError, [VStr msg])
  | _ =>
      let* key :=
        match name with
        | Some n => ret n
        | None => getattr___name__ func
        end in
      let* self := get in
      modify (set_func_dict (<[key := func]> (_func_dict self)))
  end.

End RegisterFunction.

(** What the serving thread meets, one element per turn of the loop of
    [start]: the outcome of [drain_events(timeout=1)], or the assignment
    [self._do_run = False] made by [stop] in another thread before the loop
    tests the flag again. *)
Inductive event :=
| Drain (ev : drain_event)
| DoRunFalse.

Definition drain_events (ev : drain_event) : M t unit :=
  match ev with
  | Delivered b message =>
      let* self := get in
      if _threaded self then _on_request_threaded b message
      else _on_request b message
  | Fails e => raise e
  end.

(** [try: m  except c1: h1  except c2: h2]. *)
Definition try_except2 {S A} (m : M S A) (c1 : exn -> bool) (h1 : exn -> M S A)
    (c2 : exn -> bool) (h2 : exn -> M S A) : M S A :=
  try_except m (fun e => c1 e || c2 e) (fun e => if c1 e then h1 e else h2 e).

(** The loop of [start] and what follows it.  The boolean tells whether the
    loop goes on; [false] is the [return] of the second handler. *)
Fixpoint serve (script : list event) (self : t) {struct script}
    : list effect * t * result unit :=
  if _do_run self then
    match script with
    | [] => ([], self, Blocked)
    | DoRunFalse :: rest => serve rest (set_do_run false self)
    | Drain ev :: rest =>
        (let* goes_on :=
           try_except2 (drain_events ev ;;; ret true)
             is_socket_timeout (fun _ => ret true)
             is_Exception
             (fun _ =>
                let* self := get in
                (if _threaded self then emit PublisherStop else ret tt) ;;;
                emit ConsumerCancel ;;;
                emit ConnectionClose ;;;
                emit PublishConnectionClose ;;;
                modify (set_is_stopped true) ;;;
                ret false) in
         if goes_on : bool then serve rest else ret tt) self
    end
  else
    ((if _threaded self then emit PublisherStop else ret tt) ;;;
     emit ConsumerCancel ;;;
     emit ConnectionClose ;;;
     emit PublishConnectionClose ;;;
     modify (set_is_stopped true)) self.

Definition start (script : list event) : M t unit :=
  modify (set_is_stopped false) ;;;
  let* self := get in
  (if _threaded self then emit PublisherStart else ret tt) ;;;
  serve script.

(** [stop], as the thread that calls it sees the server at that moment: it
    clears [_do_run] and comes back if [_is_stopped] is set; otherwise it
    stays in its polling loop until the serving thread has set the flag. *)
Definition stop : M t unit :=
  modify (set_do_run false) ;;;
  let* self := get in
  if _is_stopped self then ret tt else blocked.

End Server.

(** ** The Publisher thread of server.py

    [run] and [stop] are executed by two threads while workers put items on
    the queue, so the class is modelled by the steps the threads take and a
    schedule that interleaves them. *)

Module Publisher.

(** Where the publisher thread is in [run]: about to test [self.stop_it],
    inside [result_queue.get(block=True, timeout=1)], or past the loop. *)
Inductive pc :=
| LoopTest
| QueueGet
| Exited.

(** Where the caller of [stop] is: not yet in [stop], inside [join], or
    back from [stop]. *)
Inductive caller :=
| NotCalled
| Joining
| Returned.

Record t := {
  result_queue : list ResultSet;
  stop_it : bool;
  thread : pc;
  stopper : caller;
  (** the calls of [producer.publish], oldest first *)
  published : list effect;
  (** bookkeeping for the statements: every item put on the queue so far,
      and those put before the thread left its loop *)
  put_so_far : list ResultSet;
  put_before_exit : list ResultSet
}.

Definition __init__ (result_queue : list ResultSet) : t :=
  {| result_queue := result_queue; stop_it := false; thread := LoopTest;
     stopper := NotCalled; published := [];
     put_so_far := result_queue; put_before_exit := result_queue |}.

(** [producer.publish(result_set.rpc_resp, serializer='pickle',
    correlation_id=result_set.correlation_id)] on the exchange
    [result_set.reply_to]. *)
Definition publish (result_set : ResultSet) : effect :=
  Publish (reply_to result_set) (rpc_resp result_set)
    (<["correlation_id" := correlation_id result_set]> ∅).

Inductive action :=
| WorkerPut (rs : ResultSet)
| ThreadStep
| CallerStep.

(** One step of the publisher thread in [run].  At [QueueGet] an empty
    queue means the second of the timeout passed ([queue.Empty]). *)
Definition run_step (self : t) : t :=
  match thread self with
  | LoopTest =>
      {| result_queue := result_queue self; stop_it := stop_it self;
         thread := if stop_it self then Exited else QueueGet;
         stopper := stopper self; published := published self;
         put_so_far := put_so_far self; put_before_exit := put_before_exit self |}
  | QueueGet =>
      match result_queue self with
      | result_set :: rest =>
          {| result_queue := rest; stop_it := stop_it self; thread := LoopTest;
             stopper := stopper self;
             published := published self ++ [publish result_set];
             put_so_far := put_so_far self;
             put_before_exit := put_before_exit self |}
      | [] =>
          {| result_queue := []; stop_it := stop_it self; thread := LoopTest;
             stopper := stopper self; published := published self;
             put_so_far := put_so_far self;
             put_before_exit := put_before_exit self |}
      end
  | Exited => self
  end.

(** One step of the thread that calls [stop]: the assignment
    [self.stop_it = True], then [self.join()], which returns only once the
    publisher thread has ended. *)
Definition stop_step (self : t) : t :=
  match stopper self with
  | NotCalled =>
      {| result_queue := result_queue self; stop_it := true;
         thread := thread self; stopper := Joining;
         published := published self; put_so_far := put_so_far self;
         put_before_exit := put_before_exit self |}
  | Joining =>
      match thread self with
      | Exited =>
          {| result_queue := result_queue self; stop_it := stop_it self;
             thread := Exited; stopper := Returned;
             published := published self; put_so_far := put_so_far self;
             put_before_exit := put_before_exit self |}
      | _ => self
      end
  | Returned => self
  end.

(** [result_queue.put(rs)] by a worker thread. *)
Definition put_step (rs : ResultSet) (self : t) : t :=
  {| result_queue := result_queue self ++ [rs]; stop_it := stop_it self;
     thread := thread self; stopper := stopper self;
     published := published self;
     put_so_far := put_so_far self ++ [rs];
     put_before_exit :=
       match thread self with
       | Exited => put_before_exit self
       | _ => put_before_exit self ++ [rs]
       end |}.

Definition step (self : t) (a : action) : t :=
  match a with
  | WorkerPut rs => put_step rs self
  | ThreadStep => run_step self
  | CallerStep => stop_step self
  end.

Definition exec (schedule : list action) (self : t) : t :=
  fold_left step schedule self.

End Publisher.

(** ** The protocol module, which is not among the sources *)

Inductive status :=
| OK
| ERROR.

(** Modelled from the spec: the status of a Response built by
    [pr.RpcResponse(x)].  [callme/protocol.py] is missing; the server builds
    the Response of a success and of a failure with the same one-argument
    constructor, and the spec gives a captured failure the status ERROR and
    a returned value the status OK. *)
Definition status_of (b : body) : option status :=
  match b with
  | RpcResponse (VExc _ _) => Some ERROR
  | RpcResponse _ => Some OK
  | _ => None
  end.
(** * Statements

    Definitions used to state the properties, and sample inputs. *)

(** The Python value of [self._corr_id]. *)
Definition corr_value (c : option string) : value :=
  match c with
  | None => VNone
  | Some s => VStr s
  end.

Definition proxy0 : Proxy.t :=
  Proxy.set_corr_id (Some "id-1") (Proxy.__init__ "srv" "guest" "u0" 3%Q).

Definition message_with (cid rto : value) : Message :=
  {| properties := <["reply_to" := rto]> (<["correlation_id" := cid]> ∅) |}.

(** [r] started after the calls [tr] were made. *)
Definition after {S A} (tr : list effect) (r : list effect * S * result A)
    : list effect * S * result A :=
  (tr ++ trace r, final r, answer r).

(** The function that runs when [func] is called, if it is callable. *)
Definition code_of (func : pyobj) : option (list value -> outcome) :=
  match func with
  | Function _ code | CallableObject code => Some code
  | Data _ => None
  end.

(** The delivery carries the two properties the server reads. *)
Definition delivered_with (message : Message) (cid rto : value) : Prop :=
  properties message !! "correlation_id" = Some cid /\
  properties message !! "reply_to" = Some rto.

(** Serving the request [func_name(func_args)] fails with [e]: no handler
    is registered under the name, or the handler found raises [e]. *)
Inductive fails_with (self : Server.t) (func_name : string) (func_args : list value)
    : exn -> Prop :=
| fails_unregistered :
    Server._func_dict self !! func_name = None ->
    fails_with self func_name func_args (KeyError, [VStr func_name])
| fails_raising func code e :
    Server._func_dict self !! func_name = Some func ->
    code_of func = Some code ->
    code func_args = Raises e ->
    fails_with self func_name func_args e.

(** The failure [e] is captured: the serial callback returns after it has
    published a Response of status ERROR that carries [e]; the threaded
    callback returns and the worker it started puts that Response on the
    result queue and ends; the server object is as before and the loop of
    [start] goes on with the rest of its script. *)
Definition failure_captured (self : Server.t) (func_name : string)
    (func_args : list value) (message : Message) (e : exn) : Prop :=
  let req := RpcRequest func_name func_args in
  let resp := RpcResponse (VExc e.1 e.2) in
  exists cid rto pre,
    let rs := {| rpc_resp := resp; correlation_id := cid; reply_to := rto |} in
    status_of resp = Some ERROR /\
    Server._on_request req message self =
      (pre ++ [Ack message; Publish rto resp (<["correlation_id" := cid]> ∅)],
       self, Return tt) /\
    Server._on_request_threaded req message self =
      ([Ack message; ThreadStart cid func_name func_args message], self, Return tt) /\
    Server.exec_func func_name func_args message self =
      (pre ++ [QueuePut rs],
       Server.set_result_queue (Server._result_queue self ++ [rs]) self, Return tt) /\
    (forall rest, Server._do_run self = true ->
       Server.serve (Server.Drain (Delivered req message) :: rest) self =
         after (trace (Server.drain_events (Delivered req message) self))
           (Server.serve rest self)).

(** C2 as the specification words it: every failure is captured. *)
Definition C2_as_stated (self : Server.t) (func_name : string)
    (func_args : list value) (message : Message) : Prop :=
  forall cid rto e,
    delivered_with message cid rto ->
    fails_with self func_name func_args e ->
    failure_captured self func_name func_args message e.

(** A server whose handler [quit] leaves through [sys.exit()] and whose
    handler [boom] raises an error. *)
Definition server0 (threaded : bool) : Server.t :=
  Server.set_func_dict
    (<["quit" := Function "quit" (fun _ => Raises (SystemExit, []))]>
       (<["boom" := Function "boom" (fun _ => Raises (ValueError, [VStr "no"]))]>
          (<["a.b.c" := Function "add" (fun args => Returns (VTuple args))]> ∅)))
    (Server.__init__ "srv" threaded).

Definition message0 : Message := message_with (VStr "id-1") (VStr "client_guest_ex_u0").

(** The calls of the orderly shutdown in the order the specification gives them (C6):
    consumer, publisher, connections. *)
Definition stated_teardown (threaded : bool) : list effect :=
  [ConsumerCancel] ++ (if threaded then [PublisherStop] else [])
    ++ [ConnectionClose; PublishConnectionClose].

(** C6 as the specification words it: whatever exception other than the timeout
    signal comes out of [drain_events] while the server runs, the loop
    ends in that shutdown, the server is stopped and the registry is
    kept. *)
Definition C6_as_stated (self : Server.t) (e : exn) : Prop :=
  Server._do_run self = true ->
  is_socket_timeout e = false ->
  forall rest,
    Server.serve (Server.Drain (Fails e) :: rest) self =
      (stated_teardown (Server._threaded self),
       Server.set_is_stopped true self, Return tt).

(** C5 as the specification words it, for the publisher driven by [schedule] from
    its creation on an empty queue: [stop] returns only after the thread
    has ended, and when the thread has ended every item put on the queue
    before it left its loop has been published. *)
Definition C5_as_stated (schedule : list Publisher.action) : Prop :=
  let w := Publisher.exec schedule (Publisher.__init__ []) in
  (Publisher.stopper w = Publisher.Returned ->
   Publisher.thread w = Publisher.Exited) /\
  (Publisher.thread w = Publisher.Exited ->
   forall rs, In rs (Publisher.put_before_exit w) ->
              In (Publisher.publish rs) (Publisher.published w)).

Definition result_set0 : ResultSet :=
  {| rpc_resp := RpcResponse (VInt 42); correlation_id := VStr "id-1";
     reply_to := VStr "client_guest_ex_u0" |}.

(** What holds of the publisher after any schedule. *)
Definition publisher_inv (w : Publisher.t) : Prop :=
  (Publisher.stopper w = Publisher.Returned -> Publisher.thread w = Publisher.Exited) /\
  (Publisher.thread w = Publisher.Exited -> Publisher.stop_it w = true) /\
  (Publisher.stopper w <> Publisher.NotCalled -> Publisher.stop_it w = true) /\
  map Publisher.publish (Publisher.put_so_far w) =
    Publisher.published w ++ map Publisher.publish (Publisher.result_queue w).

(** Every handler in the registry is callable. *)
Definition registry_callable (self : Server.t) : Prop :=
  forall name func, Server._func_dict self !! name = Some func ->
                    Server.callable func = true.

(** A turn of the wait loop that leaves the proxy waiting for [pending]:
    a delivery with another correlation id, or a [socket.timeout] at which
    the timeout (if one is set) has not expired. *)
Definition quiet (pending : string) (timeout start_time : Q)
    (turn : drain_event * Q) : Prop :=
  match turn.1 with
  | Delivered b message =>
      exists c, properties message !! "correlation_id" = Some c /\ c <> VStr pending
  | Fails e =>
      is_socket_timeout e = true /\
      (Proxy.Qltb 0 timeout = true ->
       Proxy.Qltb timeout (turn.2 - start_time)%Q = false)
  end.

(** A server that never responds: each call of [drain_events] ends in
    [socket.timeout], and [readings] are the clock readings at these
    moments. *)
Definition silence (readings : list Q) : list (drain_event * Q) :=
  map (fun now => (Fails (socket_timeout, []), now)) readings.

(** No more than [tick] passes between one reading of the clock and the
    next, the first being compared with [previous]. *)
Fixpoint ticks_within (tick previous : Q) (readings : list Q) : Prop :=
  match readings with
  | [] => True
  | now :: rest => (now - previous <= tick)%Q /\ ticks_within tick now rest
  end.


(** The body [dict(func_name=..., func_args=...)] of a request. *)
Definition request_body (func_name : string) (func_args : list value) : body :=
  Plain (VDict [("func_name", VStr func_name); ("func_args", VTuple func_args)]).

Definition response_body (status : string) (payload : value) : body :=
  Plain (VDict [("result", payload); ("status", VStr status)]).

(** The value a Response carries for the outcome of a handler. *)
Definition response_value (o : outcome) : value :=
  match o with
  | Returns v => v
  | Raises e => VExc e.1 e.2
  end.

(** C7 as the specification words it, for a request whose handler is
    registered: whatever the handler does, the serial callback
    acknowledges after the handler and before it publishes the Response,
    the threaded callback acknowledges and then starts the worker, and the
    worker puts one ResultSet on the queue and ends. *)
Definition C7_as_stated (self : Server.t) (func_name : string)
    (func_args : list value) (message : Message) : Prop :=
  forall cid rto func code,
    delivered_with message cid rto ->
    Server._func_dict self !! func_name = Some func ->
    code_of func = Some code ->
    let v := response_value (code func_args) in
    let rs := {| rpc_resp := RpcResponse v; correlation_id := cid; reply_to := rto |} in
    Server._on_request (RpcRequest func_name func_args) message self =
      ([Call func_name func_args; Ack message;
        Publish rto (RpcResponse v) (<["correlation_id" := cid]> ∅)],
       self, Return tt) /\
    Server._on_request_threaded (RpcRequest func_name func_args) message self =
      ([Ack message; ThreadStart cid func_name func_args message], self, Return tt) /\
    Server.exec_func func_name func_args message self =
      ([Call func_name func_args; QueuePut rs],
       Server.set_result_queue (Server._result_queue self ++ [rs]) self,
       Return tt).


(** ** Further statements *)

(** The properties of the message a proxy publishes for a call. *)
Definition request_properties (self : Proxy.t) (uuid4 : string) : gmap string value :=
  <["reply_to" := VStr (Proxy._reply_id self)]>
    (<["correlation_id" := VStr uuid4]> ∅).

(** The call of [producer.publish] that [__request] makes. *)
Definition request_publish (self : Proxy.t) (func_name : string)
    (func_args : list value) (uuid4 : string) : effect :=
  Publish (VStr ("server_" +:+ Proxy._server_id self +:+ "_ex"))
    (request_body func_name func_args) (request_properties self uuid4).

(** The calls of the shutdown at the end of [start]. *)
Definition teardown (threaded : bool) : list effect :=
  (if threaded then [PublisherStop] else [])
    ++ [ConsumerCancel; ConnectionClose; PublishConnectionClose].

(** A sequence of calls of [register_function], each on the server the one
    before left, whether it returned or raised. *)
Definition register_all (str : value -> string)
    (calls : list (pyobj * option string)) (self : Server.t) : Server.t :=
  fold_left (fun s call => final (Server.register_function str call.1 call.2 s))
    calls self.

Definition proxy_fresh : Proxy.t := Proxy.__init__ "srv" "guest" "u0" 3%Q.

(** The exception that [b[key]] raises, if it raises. *)
Definition subscript_error (b : body) (key : string) : option exn :=
  match b with
  | Plain (VDict items) =>
      match items_lookup items key with
      | Some _ => None
      | None => Some (KeyError, [VStr key])
      end
  | _ => Some (TypeError, [VStr "object is not subscriptable"])
  end.

(** What [__request] ends with once a response with [status] and [payload]
    is stored. *)
Definition request_outcome (ERROR status : string) (payload : value) : result value :=
  if String.eqb status ERROR then Raise (RemoteException, [payload])
  else Return payload.

(** The turn [ev] of the loop of [start] does not end the loop: the
    callback returns, or [drain_events] raises [socket.timeout]. *)
Definition loop_goes_on (self : Server.t) (ev : drain_event) : Prop :=
  answer (Server.drain_events ev self) = Return tt \/
  exists e, answer (Server.drain_events ev self) = Raise e /\
            is_socket_timeout e = true.

(** The name under which [register_function(func, name)] stores [func]. *)
Definition registration_key (func : pyobj) (name : option string) : option string :=
  match name, func with
  | Some n, _ => Some n
  | None, Function n _ => Some n
  | None, _ => None
  end.

(** Two steps of the publisher thread (the test of the flag, then the
    [get]) for each item of [q]. *)
Definition two_steps_each (q : list ResultSet) : list Publisher.action :=
  flat_map (fun _ => [Publisher.ThreadStep; Publisher.ThreadStep]) q.

(** What holds of a publisher as long as [stop] has not been called. *)
Definition publisher_not_stopped (w : Publisher.t) : Prop :=
  Publisher.stopper w = Publisher.NotCalled ->
  Publisher.stop_it w = false /\ Publisher.thread w <> Publisher.Exited.
(** * Properties *)

(** ** Reply deliveries on the client *)

Lemma corr_id_eq_true (c : option string) (v : value) :
  Proxy.corr_id_eq c v = true <-> v = corr_value c.
Proof.
  destruct c as [s|], v; simpl; try (split; [discriminate | congruence]);
    try (split; congruence).
  rewrite String.eqb_eq. split; congruence.
Qed.

Lemma corr_id_eq_false (c : option string) (v : value) :
  v <> corr_value c -> Proxy.corr_id_eq c v = false.
Proof.
  intros Hne. destruct (Proxy.corr_id_eq c v) eqn:E; [|reflexivity].
  apply corr_id_eq_true in E. contradiction.
Qed.

Lemma on_response_match (self : Proxy.t) (b : body) (message : Message) :
  properties message !! "correlation_id" = Some (corr_value (Proxy._corr_id self)) ->
  Proxy._on_response b message self =
    ([Ack message], Proxy.set_is_received true (Proxy.set_response b self), Return tt).
Proof.
  intros Hp. unfold Proxy._on_response, bind, get, getitem. rewrite Hp. simpl.
  assert (E : Proxy.corr_id_eq (Proxy._corr_id self) (corr_value (Proxy._corr_id self)) = true)
    by (apply corr_id_eq_true; reflexivity).
  rewrite E. reflexivity.
Qed.

Lemma on_response_mismatch (self : Proxy.t) (b : body) (message : Message) :
  properties message !! "correlation_id" <> Some (corr_value (Proxy._corr_id self)) ->
  trace (Proxy._on_response b message self) = [] /\
  final (Proxy._on_response b message self) = self.
Proof.
  intros Hp. unfold Proxy._on_response, bind, get, getitem.
  destruct (properties message !! "correlation_id") as [c|] eqn:E; simpl.
  - rewrite corr_id_eq_false by congruence. split; reflexivity.
  - split; reflexivity.
Qed.

(** C9: a delivery on the reply channel whose correlation id is not the one
    of the pending call is discarded without side effect: the stored
    response, the received flag and every other field of the client are
    unchanged and the message is not acknowledged.  A delivery is consumed
    (stored, flagged and acknowledged) only when its correlation id is that
    of the waiting call. *)
Theorem C9_nonmatching_delivery_is_discarded
    (self : Proxy.t) (b : body) (message : Message) :
  (properties message !! "correlation_id" <> Some (corr_value (Proxy._corr_id self)) ->
   trace (Proxy._on_response b message self) = [] /\
   final (Proxy._on_response b message self) = self) /\
  (trace (Proxy._on_response b message self) <> [] \/
   final (Proxy._on_response b message self) <> self ->
   properties message !! "correlation_id" = Some (corr_value (Proxy._corr_id self)) /\
   Proxy._on_response b message self =
     ([Ack message], Proxy.set_is_received true (Proxy.set_response b self), Return tt)).
Proof.
  split; [apply on_response_mismatch|].
  intros Hchg.
  destruct (properties message !! "correlation_id") as [c|] eqn:E.
  - destruct (Proxy.corr_id_eq (Proxy._corr_id self) c) eqn:Ec.
    + apply corr_id_eq_true in Ec. subst c. split; [reflexivity|].
      apply on_response_match. exact E.
    + exfalso.
      assert (Hne : properties message !! "correlation_id"
                    <> Some (corr_value (Proxy._corr_id self))).
      { rewrite E. intros [= ->].
        assert (Proxy.corr_id_eq (Proxy._corr_id self)
                  (corr_value (Proxy._corr_id self)) = true)
          by (apply corr_id_eq_true; reflexivity).
        congruence. }
      destruct (on_response_mismatch self b message Hne) as [H1 H2].
      destruct Hchg; contradiction.
  - exfalso.
    assert (Hne : properties message !! "correlation_id"
                  <> Some (corr_value (Proxy._corr_id self)))
      by (rewrite E; discriminate).
    destruct (on_response_mismatch self b message Hne) as [H1 H2].
    destruct Hchg; contradiction.
Qed.

Lemma C9_witness :
  trace (Proxy._on_response (Plain VNone) (message_with (VStr "id-2") VNone) proxy0) = [] /\
  final (Proxy._on_response (Plain VNone) (message_with (VStr "id-2") VNone) proxy0) = proxy0.
Proof.
  apply (proj1 (C9_nonmatching_delivery_is_discarded proxy0 (Plain VNone)
                  (message_with (VStr "id-2") VNone))).
  vm_compute. discriminate.
Defined.

(** ** The request callbacks of the server *)

Ltac run_method :=
  unfold Server._on_request, Server._on_request_threaded, Server.exec_func,
    Server.func_dict_getitem, Server.apply, Server.queue_put,
    bind, try_except, getitem, get, ret, raise, emit, modify;
  repeat (cbn;
          repeat match goal with
                 | H : _ !! _ = _ |- _ => rewrite H
                 | H : _ _ = Returns _ |- _ => rewrite H
                 | H : _ _ = Raises _ |- _ => rewrite H
                 | H : is_Exception _ = _ |- _ => rewrite H
                 end);
  cbn.

Section Callbacks.

Variables (self : Server.t) (func_name : string) (func_args : list value).
Variables (message : Message) (cid rto : value).
Hypothesis Hcid : properties message !! "correlation_id" = Some cid.
Hypothesis Hrto : properties message !! "reply_to" = Some rto.

Let req := RpcRequest func_name func_args.
Let reply (v : value) : effect :=
  Publish rto (RpcResponse v) (<["correlation_id" := cid]> ∅).
Let queued (v : value) : ResultSet :=
  {| rpc_resp := RpcResponse v; correlation_id := cid; reply_to := rto |}.

Lemma on_request_unregistered :
  Server._func_dict self !! func_name = None ->
  Server._on_request req message self =
    ([Ack message; reply (VExc KeyError [VStr func_name])], self, Return tt).
Proof. intros H. subst req reply. run_method. reflexivity. Qed.

Lemma on_request_not_callable v :
  Server._func_dict self !! func_name = Some (Data v) ->
  Server._on_request req message self =
    ([Ack message; reply (VExc TypeError [VStr "object is not callable"])],
     self, Return tt).
Proof. intros H. subst req reply. run_method. reflexivity. Qed.

Lemma on_request_returns func code v :
  Server._func_dict self !! func_name = Some func ->
  code_of func = Some code ->
  code func_args = Returns v ->
  Server._on_request req message self =
    ([Call func_name func_args; Ack message; reply v], self, Return tt).
Proof.
  intros H Hc Hv. subst req reply.
  destruct func; simpl in Hc; [discriminate| |]; injection Hc as ->;
    run_method; reflexivity.
Qed.

Lemma on_request_raises func code e :
  Server._func_dict self !! func_name = Some func ->
  code_of func = Some code ->
  code func_args = Raises e ->
  is_Exception e = true ->
  Server._on_request req message self =
    ([Call func_name func_args; Ack message; reply (VExc e.1 e.2)], self, Return tt).
Proof.
  intros H Hc Hv He. subst req reply.
  destruct func; simpl in Hc; [discriminate| |]; injection Hc as ->;
    run_method; reflexivity.
Qed.

Lemma on_request_escapes func code e :
  Server._func_dict self !! func_name = Some func ->
  code_of func = Some code ->
  code func_args = Raises e ->
  is_Exception e = false ->
  Server._on_request req message self = ([Call func_name func_args], self, Raise e).
Proof.
  intros H Hc Hv He. subst req reply.
  destruct func; simpl in Hc; [discriminate| |]; injection Hc as ->;
    run_method; reflexivity.
Qed.

Lemma on_request_threaded_acks :
  Server._on_request_threaded req message self =
    ([Ack message; ThreadStart cid func_name func_args message], self, Return tt).
Proof. subst req. run_method. reflexivity. Qed.

Lemma exec_func_unregistered :
  Server._func_dict self !! func_name = None ->
  Server.exec_func func_name func_args message self =
    ([QueuePut (queued (VExc KeyError [VStr func_name]))],
     Server.set_result_queue
       (Server._result_queue self ++ [queued (VExc KeyError [VStr func_name])]) self,
     Return tt).
Proof. intros H. subst queued. run_method. reflexivity. Qed.

Lemma exec_func_not_callable v :
  Server._func_dict self !! func_name = Some (Data v) ->
  Server.exec_func func_name func_args message self =
    ([QueuePut (queued (VExc TypeError [VStr "object is not callable"]))],
     Server.set_result_queue
       (Server._result_queue self
          ++ [queued (VExc TypeError [VStr "object is not callable"])]) self,
     Return tt).
Proof. intros H. subst queued. run_method. reflexivity. Qed.

Lemma exec_func_returns func code v :
  Server._func_dict self !! func_name = Some func ->
  code_of func = Some code ->
  code func_args = Returns v ->
  Server.exec_func func_name func_args message self =
    ([Call func_name func_args; QueuePut (queued v)],
     Server.set_result_queue (Server._result_queue self ++ [queued v]) self,
     Return tt).
Proof.
  intros H Hc Hv. subst queued.
  destruct func; simpl in Hc; [discriminate| |]; injection Hc as ->;
    run_method; reflexivity.
Qed.

Lemma exec_func_raises func code e :
  Server._func_dict self !! func_name = Some func ->
  code_of func = Some code ->
  code func_args = Raises e ->
  is_Exception e = true ->
  Server.exec_func func_name func_args message self =
    ([Call func_name func_args; QueuePut (queued (VExc e.1 e.2))],
     Server.set_result_queue (Server._result_queue self ++ [queued (VExc e.1 e.2)]) self,
     Return tt).
Proof.
  intros H Hc Hv He. subst queued.
  destruct func; simpl in Hc; [discriminate| |]; injection Hc as ->;
    run_method; reflexivity.
Qed.

Lemma exec_func_escapes func code e :
  Server._func_dict self !! func_name = Some func ->
  code_of func = Some code ->
  code func_args = Raises e ->
  is_Exception e = false ->
  Server.exec_func func_name func_args message self =
    ([Call func_name func_args], self, Raise e).
Proof.
  intros H Hc Hv He.
  destruct func; simpl in Hc; [discriminate| |]; injection Hc as ->;
    run_method; reflexivity.
Qed.

End Callbacks.

(** ** One turn of the loop of [start] *)

Lemma after_nil {S A} (r : list effect * S * result A) : after [] r = r.
Proof. destruct r as [[tr s] a]. reflexivity. Qed.

Ltac run_serve H Hrun :=
  cbn [Server.serve]; rewrite Hrun;
  unfold bind, Server.try_except2, try_except; rewrite H; cbn.

Lemma serve_goes_on self ev rest tr self' :
  Server._do_run self = true ->
  Server.drain_events ev self = (tr, self', Return tt) ->
  Server.serve (Server.Drain ev :: rest) self = after tr (Server.serve rest self').
Proof.
  intros Hrun H. run_serve H Hrun.
  rewrite app_nil_r. destruct (Server.serve rest self') as [[tr' s'] r']. reflexivity.
Qed.

Lemma serve_timeout self ev rest tr self' e :
  Server._do_run self = true ->
  Server.drain_events ev self = (tr, self', Raise e) ->
  is_socket_timeout e = true ->
  Server.serve (Server.Drain ev :: rest) self = after tr (Server.serve rest self').
Proof.
  intros Hrun H He. run_serve H Hrun. rewrite He. cbn.
  rewrite app_nil_r. destruct (Server.serve rest self') as [[tr' s'] r']. reflexivity.
Qed.

Lemma serve_fault self ev rest tr self' e :
  Server._do_run self = true ->
  Server.drain_events ev self = (tr, self', Raise e) ->
  is_socket_timeout e = false ->
  is_Exception e = true ->
  Server.serve (Server.Drain ev :: rest) self =
    (tr ++ (if Server._threaded self' then [PublisherStop] else [])
        ++ [ConsumerCancel; ConnectionClose; PublishConnectionClose],
     Server.set_is_stopped true self', Return tt).
Proof.
  intros Hrun H Ht He. run_serve H Hrun. rewrite Ht, He. cbn.
  unfold get, emit, modify, ret. cbn.
  destruct (Server._threaded self'); cbn; rewrite app_nil_r; reflexivity.
Qed.

Lemma serve_escape self ev rest tr self' e :
  Server._do_run self = true ->
  Server.drain_events ev self = (tr, self', Raise e) ->
  is_socket_timeout e = false ->
  is_Exception e = false ->
  Server.serve (Server.Drain ev :: rest) self = (tr, self', Raise e).
Proof.
  intros Hrun H Ht He. run_serve H Hrun. rewrite Ht, He. reflexivity.
Qed.

Lemma drain_events_delivered self b message :
  Server.drain_events (Delivered b message) self =
    if Server._threaded self then Server._on_request_threaded b message self
    else Server._on_request b message self.
Proof.
  unfold Server.drain_events, bind, get. cbn.
  destruct (Server._threaded self).
  - destruct (Server._on_request_threaded b message self) as [[tr s] [a|e|]]; reflexivity.
  - destruct (Server._on_request b message self) as [[tr s] [a|e|]]; reflexivity.
Qed.

(** C8: a delivered message whose body is not an [RpcRequest] instance is
    dropped in both modes: the callback returns at once, no handler is
    called, nothing is acknowledged or published, no exception is raised,
    and the loop of [start] goes on unchanged. *)
Theorem C8_malformed_delivery_is_dropped
    (self : Server.t) (b : body) (message : Message) :
  (forall func_name func_args, b <> RpcRequest func_name func_args) ->
  Server._on_request b message self = ([], self, Return tt) /\
  Server._on_request_threaded b message self = ([], self, Return tt) /\
  Server.drain_events (Delivered b message) self = ([], self, Return tt) /\
  (forall rest, Server._do_run self = true ->
     Server.serve (Server.Drain (Delivered b message) :: rest) self =
       Server.serve rest self).
Proof.
  intros Hb.
  assert (H1 : Server._on_request b message self = ([], self, Return tt))
    by (destruct b; [reflexivity | exfalso; eapply Hb; reflexivity | reflexivity]).
  assert (H2 : Server._on_request_threaded b message self = ([], self, Return tt))
    by (destruct b; [reflexivity | exfalso; eapply Hb; reflexivity | reflexivity]).
  assert (H3 : Server.drain_events (Delivered b message) self = ([], self, Return tt))
    by (rewrite drain_events_delivered; destruct (Server._threaded self); assumption).
  repeat split; try assumption.
  intros rest Hrun. rewrite (serve_goes_on _ _ _ _ _ Hrun H3). apply after_nil.
Qed.

Lemma C8_witness :
  Server._on_request (Plain (VStr "noise")) message0 (server0 false) =
    ([], server0 false, Return tt).
Proof.
  apply (C8_malformed_delivery_is_dropped (server0 false) (Plain (VStr "noise")) message0).
  intros func_name func_args. discriminate.
Defined.

(** C7 (amended): for a request delivered with its correlation id and reply
    address.  In threaded mode the message is acknowledged first and then
    the worker is started.  When the handler returns, or raises an exception
    derived from [Exception], the serial callback calls the handler, then
    acknowledges the message, then publishes the Response; the worker calls
    the handler, publishes nothing, puts one ResultSet with the response,
    the correlation id and the reply address on the result queue, and ends.
    When no callable handler is registered no handler runs and the error
    Response goes the same way.  When the handler leaves through an
    exception that does not derive from [Exception], the serial callback
    neither acknowledges nor publishes and the worker puts nothing. *)
Theorem C7_acknowledgement_order_by_outcome
    (self : Server.t) (func_name : string) (func_args : list value)
    (message : Message) (cid rto : value) :
  delivered_with message cid rto ->
  let req := RpcRequest func_name func_args in
  let reply := fun v => Publish rto (RpcResponse v) (<["correlation_id" := cid]> ∅) in
  let queued := fun v =>
    {| rpc_resp := RpcResponse v; correlation_id := cid; reply_to := rto |} in
  Server._on_request_threaded req message self =
    ([Ack message; ThreadStart cid func_name func_args message], self, Return tt) /\
  (forall func code,
     Server._func_dict self !! func_name = Some func ->
     code_of func = Some code ->
     (forall e, code func_args = Raises e -> is_Exception e = true) ->
     Server._on_request req message self =
       ([Call func_name func_args; Ack message;
         reply (response_value (code func_args))], self, Return tt) /\
     Server.exec_func func_name func_args message self =
       ([Call func_name func_args; QueuePut (queued (response_value (code func_args)))],
        Server.set_result_queue
          (Server._result_queue self ++ [queued (response_value (code func_args))]) self,
        Return tt)) /\
  (forall func code e,
     Server._func_dict self !! func_name = Some func ->
     code_of func = Some code ->
     code func_args = Raises e ->
     is_Exception e = false ->
     Server._on_request req message self = ([Call func_name func_args], self, Raise e) /\
     Server.exec_func func_name func_args message self =
       ([Call func_name func_args], self, Raise e)) /\
  (Server._func_dict self !! func_name = None ->
   Server._on_request req message self =
     ([Ack message; reply (VExc KeyError [VStr func_name])], self, Return tt) /\
   Server.exec_func func_name func_args message self =
     ([QueuePut (queued (VExc KeyError [VStr func_name]))],
      Server.set_result_queue
        (Server._result_queue self ++ [queued (VExc KeyError [VStr func_name])]) self,
      Return tt)) /\
  (forall v,
     Server._func_dict self !! func_name = Some (Data v) ->
     Server._on_request req message self =
       ([Ack message; reply (VExc TypeError [VStr "object is not callable"])],
        self, Return tt) /\
     Server.exec_func func_name func_args message self =
       ([QueuePut (queued (VExc TypeError [VStr "object is not callable"]))],
        Server.set_result_queue
          (Server._result_queue self
             ++ [queued (VExc TypeError [VStr "object is not callable"])]) self,
        Return tt)).
Proof.
  intros [Hcid Hrto] req reply queued. subst req reply queued.
  split; [eapply on_request_threaded_acks; eassumption|].
  split; [|split; [|split]].
  - intros func code Hf Hc Hexc.
    destruct (code func_args) as [v|e] eqn:Hv; cbn [response_value].
    + split; [eapply on_request_returns | eapply exec_func_returns]; eassumption.
    + specialize (Hexc e eq_refl).
      split; [eapply on_request_raises | eapply exec_func_raises]; eassumption.
  - intros func code e Hf Hc Hv He.
    split; [eapply on_request_escapes | eapply exec_func_escapes]; eassumption.
  - intros Hf.
    split; [eapply on_request_unregistered | eapply exec_func_unregistered]; eassumption.
  - intros v Hf.
    split; [eapply on_request_not_callable | eapply exec_func_not_callable]; eassumption.
Qed.

Lemma C7_witness :
  Server._on_request (RpcRequest "boom" []) message0 (server0 false) =
    ([Call "boom" []; Ack message0;
      Publish (VStr "client_guest_ex_u0")
        (RpcResponse (response_value (Raises (ValueError, [VStr "no"]))))
        (<["correlation_id" := VStr "id-1"]> ∅)],
     server0 false, Return tt) /\
  Server.exec_func "boom" [] message0 (server0 false) =
    ([Call "boom" [];
      QueuePut {| rpc_resp := RpcResponse (response_value (Raises (ValueError, [VStr "no"])));
                  correlation_id := VStr "id-1";
                  reply_to := VStr "client_guest_ex_u0" |}],
     Server.set_result_queue
       (Server._result_queue (server0 false)
          ++ [{| rpc_resp := RpcResponse (response_value (Raises (ValueError, [VStr "no"])));
                 correlation_id := VStr "id-1";
                 reply_to := VStr "client_guest_ex_u0" |}])
       (server0 false),
     Return tt).
Proof.
  apply (proj1 (proj2
           (C7_acknowledgement_order_by_outcome (server0 false) "boom" [] message0
              (VStr "id-1") (VStr "client_guest_ex_u0") (conj eq_refl eq_refl)))
           (Function "boom" (fun _ => Raises (ValueError, [VStr "no"])))
           (fun _ => Raises (ValueError, [VStr "no"]))).
  - reflexivity.
  - reflexivity.
  - intros e [= <-]. reflexivity.
Defined.

(** C7 as stated fails: a handler that leaves through [SystemExit] is not
    caught by [except Exception]; the worker ends without putting anything
    on the result queue, and the serial callback neither acknowledges the
    message nor publishes a Response. *)
Lemma C7_counterexample : ~ C7_as_stated (server0 true) "quit" [] message0.
Proof.
  intros H.
  destruct (H (VStr "id-1") (VStr "client_guest_ex_u0")
              (Function "quit" (fun _ => Raises (SystemExit, [])))
              (fun _ => Raises (SystemExit, [])))
    as (_ & _ & Hworker).
  - split; reflexivity.
  - reflexivity.
  - reflexivity.
  - apply (f_equal answer) in Hworker. vm_compute in Hworker. discriminate.
Qed.

(** C2 (amended): for a request delivered with its correlation id and reply
    address, a method name that is not registered, or a handler that raises
    an exception derived from [Exception], is captured into a Response of
    status ERROR that carries the exception; nothing propagates out of the
    callback, the server object is unchanged and the loop of [start] goes on,
    in serial and in threaded mode. *)
Theorem C2_failure_is_captured
    (self : Server.t) (func_name : string) (func_args : list value)
    (message : Message) (cid rto : value) (e : exn) :
  delivered_with message cid rto ->
  fails_with self func_name func_args e ->
  is_Exception e = true ->
  failure_captured self func_name func_args message e.
Proof.
  intros [Hcid Hrto] Hfail He.
  assert (Hloop : forall rest, Server._do_run self = true ->
            Server.serve
              (Server.Drain (Delivered (RpcRequest func_name func_args) message) :: rest)
              self =
            after (trace (Server.drain_events
                            (Delivered (RpcRequest func_name func_args) message) self))
              (Server.serve rest self)).
  { intros rest Hrun.
    assert (Hret : exists tr,
              Server.drain_events (Delivered (RpcRequest func_name func_args) message) self
              = (tr, self, Return tt)).
    { rewrite drain_events_delivered. destruct (Server._threaded self).
      - eexists. eapply on_request_threaded_acks; eassumption.
      - destruct Hfail as [Hnone | func code e Hf Hc Hv].
        + eexists. eapply on_request_unregistered; eassumption.
        + eexists. eapply on_request_raises; eassumption. }
    destruct Hret as [tr Hret].
    rewrite (serve_goes_on _ _ _ _ _ Hrun Hret), Hret. reflexivity. }
  destruct Hfail as [Hnone | func code e Hf Hc Hv].
  - exists cid, rto, []. cbn.
    split; [reflexivity|].
    split; [eapply on_request_unregistered; eassumption|].
    split; [eapply on_request_threaded_acks; eassumption|].
    split; [eapply exec_func_unregistered; eassumption|].
    exact Hloop.
  - exists cid, rto, [Call func_name func_args]. cbn.
    split; [reflexivity|].
    split; [eapply on_request_raises; eassumption|].
    split; [eapply on_request_threaded_acks; eassumption|].
    split; [eapply exec_func_raises; eassumption|].
    exact Hloop.
Qed.

Lemma C2_witness :
  failure_captured (server0 false) "boom" [] message0 (ValueError, [VStr "no"]).
Proof.
  apply (C2_failure_is_captured (server0 false) "boom" [] message0
           (VStr "id-1") (VStr "client_guest_ex_u0")).
  - split; reflexivity.
  - apply (fails_raising _ _ _
             (Function "boom" (fun _ => Raises (ValueError, [VStr "no"])))
             (fun _ => Raises (ValueError, [VStr "no"]))); reflexivity.
  - reflexivity.
Defined.

(** C2 as stated fails: a handler that leaves through [SystemExit], which
    [except Exception] does not catch, takes the exception out of the
    callback; no Response is built. *)
Lemma C2_counterexample : ~ C2_as_stated (server0 false) "quit" [] message0.
Proof.
  intros H.
  destruct (H (VStr "id-1") (VStr "client_guest_ex_u0") (SystemExit, []))
    as (cid & rto & pre & _ & Hserial & _).
  - split; reflexivity.
  - apply (fails_raising _ _ _
             (Function "quit" (fun _ => Raises (SystemExit, [])))
             (fun _ => Raises (SystemExit, []))); reflexivity.
  - apply (f_equal answer) in Hserial. vm_compute in Hserial. discriminate.
Qed.

(** ** Faults in the loop of [start] *)

Lemma on_request_state self b message :
  final (Server._on_request b message self) = self.
Proof.
  destruct b as [v|func_name func_args|v]; try reflexivity.
  unfold Server._on_request, Server.func_dict_getitem, Server.apply,
    bind, try_except, getitem, get, ret, raise, emit. cbn.
  destruct (properties message !! "correlation_id") as [cid|]; cbn;
    destruct (properties message !! "reply_to") as [rto|]; cbn;
    try reflexivity;
    destruct (Server._func_dict self !! func_name) as [[v|n code|code]|]; cbn;
    try reflexivity;
    destruct (code func_args) as [v|e]; cbn; try reflexivity;
    destruct (is_Exception e); reflexivity.
Qed.

Lemma on_request_threaded_state self b message :
  final (Server._on_request_threaded b message self) = self.
Proof.
  destruct b as [v|func_name func_args|v]; try reflexivity.
  unfold Server._on_request_threaded, bind, getitem, ret, raise, emit. cbn.
  destruct (properties message !! "correlation_id") as [cid|]; reflexivity.
Qed.

Lemma drain_events_state self ev : final (Server.drain_events ev self) = self.
Proof.
  destruct ev as [b message|e]; [|reflexivity].
  rewrite drain_events_delivered. destruct (Server._threaded self).
  - apply on_request_threaded_state.
  - apply on_request_state.
Qed.

(** C6 (amended): when an exception derived from [Exception], other than
    [socket.timeout], comes out of [drain_events] while the server runs
    (from the transport or out of the request callback), the loop ends in
    an orderly shutdown: the publisher is stopped (threaded mode only), then
    the consumer is cancelled, then the consuming and the publishing
    connection are closed; the server is marked stopped, [start] returns, and
    the registry is what it was. *)
Theorem C6_fault_shuts_down
    (self : Server.t) (ev : drain_event) (rest : list Server.event) (e : exn) :
  Server._do_run self = true ->
  answer (Server.drain_events ev self) = Raise e ->
  is_socket_timeout e = false ->
  is_Exception e = true ->
  Server.serve (Server.Drain ev :: rest) self =
    (trace (Server.drain_events ev self)
       ++ (if Server._threaded self then [PublisherStop] else [])
       ++ [ConsumerCancel; ConnectionClose; PublishConnectionClose],
     Server.set_is_stopped true self, Return tt) /\
  Server._is_stopped (final (Server.serve (Server.Drain ev :: rest) self)) = true /\
  Server._func_dict (final (Server.serve (Server.Drain ev :: rest) self))
    = Server._func_dict self.
Proof.
  intros Hrun Hans Ht He.
  pose proof (drain_events_state self ev) as Hst.
  destruct (Server.drain_events ev self) as [[tr s'] r] eqn:Hd.
  cbn in Hans, Hst. subst r s'.
  rewrite (serve_fault _ _ rest _ _ _ Hrun Hd Ht He).
  split; [reflexivity|]. split; reflexivity.
Qed.

Lemma C6_witness :
  Server.serve [Server.Drain (Fails (IOError, []))] (server0 true) =
    ([PublisherStop; ConsumerCancel; ConnectionClose; PublishConnectionClose],
     Server.set_is_stopped true (server0 true), Return tt).
Proof.
  apply (C6_fault_shuts_down (server0 true) (Fails (IOError, [])) [] (IOError, []));
    reflexivity.
Defined.

(** C6 as stated fails twice: in threaded mode the publisher is stopped
    before the consumer is cancelled, not after; and an exception that does
    not derive from [Exception], such as [KeyboardInterrupt], leaves [start]
    with no shutdown at all. *)
Lemma C6_counterexample :
  ~ C6_as_stated (server0 true) (IOError, []) /\
  ~ C6_as_stated (server0 false) (KeyboardInterrupt, []).
Proof.
  split; intros H.
  - specialize (H eq_refl eq_refl []).
    apply (f_equal trace) in H. vm_compute in H. discriminate.
  - specialize (H eq_refl eq_refl []).
    apply (f_equal answer) in H. vm_compute in H. discriminate.
Qed.

(** ** The publisher thread *)

Lemma publisher_inv_init q : publisher_inv (Publisher.__init__ q).
Proof.
  unfold publisher_inv. cbn. repeat split; try discriminate. congruence.
Qed.

Lemma publisher_inv_step w a : publisher_inv w -> publisher_inv (Publisher.step w a).
Proof.
  intros (H1 & H2 & H3 & H4). destruct a as [rs| |]; cbn.
  - unfold Publisher.put_step, publisher_inv. cbn.
    repeat split; try assumption.
    rewrite !map_app, H4, <- app_assoc. reflexivity.
  - unfold Publisher.run_step.
    destruct (Publisher.thread w) eqn:Ht.
    + unfold publisher_inv. cbn. repeat split; try assumption.
      * intros Hs. specialize (H1 Hs). discriminate.
      * destruct (Publisher.stop_it w); [reflexivity | discriminate].
    + destruct (Publisher.result_queue w) as [|rs rest] eqn:Hq;
        unfold publisher_inv; cbn; repeat split; try assumption;
        try (intros Hs; specialize (H1 Hs); discriminate);
        try discriminate;
        rewrite H4; cbn; rewrite <- ?app_assoc; reflexivity.
    + unfold publisher_inv. rewrite Ht. repeat split; auto.
  - unfold Publisher.stop_step.
    destruct (Publisher.stopper w) eqn:Hs.
    + unfold publisher_inv. cbn. repeat split; try assumption; try discriminate;
        reflexivity.
    + destruct (Publisher.thread w) eqn:Ht;
        unfold publisher_inv; cbn; rewrite ?Hs, ?Ht; repeat split;
        try assumption; try discriminate; try reflexivity;
        try (intros; apply H3; discriminate).
    + unfold publisher_inv. rewrite Hs. repeat split; auto.
Qed.

Lemma publisher_inv_exec schedule w :
  publisher_inv w -> publisher_inv (Publisher.exec schedule w).
Proof.
  revert w. induction schedule as [|a schedule IH]; intros w Hw; [exact Hw|].
  cbn. apply IH, publisher_inv_step, Hw.
Qed.

Lemma publisher_exited_step w a :
  Publisher.thread w = Publisher.Exited ->
  Publisher.thread (Publisher.step w a) = Publisher.Exited /\
  Publisher.published (Publisher.step w a) = Publisher.published w.
Proof.
  intros Ht. destruct a as [rs| |]; cbn.
  - split; [exact Ht | reflexivity].
  - unfold Publisher.run_step. rewrite Ht. split; [exact Ht | reflexivity].
  - unfold Publisher.stop_step.
    destruct (Publisher.stopper w); cbn; rewrite ?Ht; cbn; split;
      try exact Ht; reflexivity.
Qed.

Lemma publisher_exited_exec more w :
  Publisher.thread w = Publisher.Exited ->
  Publisher.thread (Publisher.exec more w) = Publisher.Exited /\
  Publisher.published (Publisher.exec more w) = Publisher.published w.
Proof.
  revert w. induction more as [|a more IH]; intros w Ht; [split; [exact Ht | reflexivity]|].
  change (Publisher.exec (a :: more) w) with (Publisher.exec more (Publisher.step w a)).
  destruct (publisher_exited_step w a Ht) as [Ht' Hp'].
  destruct (IH _ Ht') as [Ht'' Hp'']. split; [exact Ht'' | congruence].
Qed.

Lemma publisher_join_returns w :
  publisher_inv w ->
  Publisher.stopper w = Publisher.Joining ->
  let w' := Publisher.exec
              [Publisher.ThreadStep; Publisher.ThreadStep; Publisher.CallerStep] w in
  Publisher.stopper w' = Publisher.Returned /\ Publisher.thread w' = Publisher.Exited.
Proof.
  intros (H1 & H2 & H3 & H4) Hs.
  assert (Hstop : Publisher.stop_it w = true) by (apply H3; rewrite Hs; discriminate).
  destruct w as [queue flag th st pub ps pb]. cbn in Hs, Hstop. subst st flag.
  destruct th as [| |]; [|destruct queue as [|rs rest]|]; cbn; split; reflexivity.
Qed.

(** C5 (amended): [stop] sets the flag and returns only after the publisher
    thread has seen the flag and ended, and the thread does end within two
    of its own steps once the flag is set.  The items the thread took from
    the queue have all been published, in order; the items still on the
    queue when it sees the flag stay there unpublished: at any moment the
    published items followed by the queued ones are exactly the items ever
    put, and nothing is published after the thread has ended. *)
Theorem C5_stop_joins_and_queue_is_kept
    (q : list ResultSet) (schedule : list Publisher.action) :
  let w := Publisher.exec schedule (Publisher.__init__ q) in
  (Publisher.stopper w = Publisher.Returned ->
   Publisher.thread w = Publisher.Exited /\ Publisher.stop_it w = true) /\
  map Publisher.publish (Publisher.put_so_far w) =
    Publisher.published w ++ map Publisher.publish (Publisher.result_queue w) /\
  (Publisher.thread w = Publisher.Exited ->
   forall more, Publisher.published (Publisher.exec more w) = Publisher.published w) /\
  (Publisher.stopper w = Publisher.Joining ->
   let w' := Publisher.exec
               [Publisher.ThreadStep; Publisher.ThreadStep; Publisher.CallerStep] w in
   Publisher.stopper w' = Publisher.Returned /\ Publisher.thread w' = Publisher.Exited).
Proof.
  intros w.
  assert (Hinv : publisher_inv w) by apply publisher_inv_exec, publisher_inv_init.
  pose proof Hinv as (H1 & H2 & H3 & H4).
  split; [|split; [exact H4|split]].
  - intros Hs. split; [apply H1, Hs | apply H2, H1, Hs].
  - intros Ht more. apply publisher_exited_exec, Ht.
  - intros Hs. apply publisher_join_returns; assumption.
Qed.

Lemma C5_witness :
  Publisher.published
    (Publisher.exec [Publisher.WorkerPut result_set0]
       (Publisher.exec [Publisher.CallerStep; Publisher.ThreadStep]
          (Publisher.__init__ [result_set0]))) = [].
Proof.
  apply (proj1 (proj2 (proj2 (C5_stop_joins_and_queue_is_kept [result_set0]
                  [Publisher.CallerStep; Publisher.ThreadStep])))).
  reflexivity.
Defined.

(** C5 as stated fails: an item is put, [stop] sets the flag, the thread
    tests the flag and leaves its loop, [join] returns; the item was put
    before the flag was seen and is never published. *)
Lemma C5_counterexample :
  ~ C5_as_stated
      [Publisher.WorkerPut result_set0; Publisher.CallerStep;
       Publisher.ThreadStep; Publisher.CallerStep].
Proof.
  intros [_ H]. specialize (H eq_refl result_set0).
  cbn in H. apply H. left. reflexivity.
Qed.

(** ** Registration of handlers *)

Section Registration.

Variable str : value -> string.

Lemma register_function_rejects_data self v name :
  final (Server.register_function str (Data v) name self) = self /\
  exists e, answer (Server.register_function str (Data v) name self) = Raise e.
Proof.
  unfold Server.register_function, Server.not_callable_message, bind, ret, raise.
  destruct v as [| | |vs| |]; cbn; eauto.
  destruct vs as [|v [|v' vs]]; cbn; eauto.
Qed.

Lemma register_function_ValueError self v name :
  (forall vs, v = VTuple vs -> length vs = 1) ->
  exists msg,
    Server.register_function str (Data v) name self
    = ([], self, Raise (ValueError, [VStr msg])).
Proof.
  intros Hv.
  unfold Server.register_function, Server.not_callable_message, bind, ret, raise.
  destruct v as [| | |vs| |]; cbn; eauto.
  specialize (Hv vs eq_refl).
  destruct vs as [|v [|v' vs]]; cbn in *; try discriminate; eauto.
Qed.

Lemma register_function_stores self func name key :
  Server.callable func = true ->
  (name = Some key \/ name = None /\ exists code, func = Function key code) ->
  Server.register_function str func name self =
    ([], Server.set_func_dict (<[key := func]> (Server._func_dict self)) self,
     Return tt).
Proof.
  intros Hc [-> | [-> [code ->]]].
  - destruct func; [discriminate| |]; reflexivity.
  - reflexivity.
Qed.

Lemma register_function_keeps_registry_callable self func name :
  registry_callable self ->
  registry_callable (final (Server.register_function str func name self)).
Proof.
  intros Hreg. destruct func as [v|n code|code].
  - destruct (register_function_rejects_data self v name) as [-> _]. exact Hreg.
  - destruct name as [key|]; unfold registry_callable; cbn; intros k f;
      rewrite lookup_insert; case_decide; try (intros [= <-]; reflexivity);
      apply Hreg.
  - destruct name as [key|]; [|exact Hreg].
    unfold registry_callable. cbn. intros k f.
    rewrite lookup_insert. case_decide; [intros [= <-]; reflexivity|].
    apply Hreg.
Qed.

(** C10 (the code departs from it): [register_function] builds the message
    of its [ValueError] with the operator [%], so a non-callable argument
    that is a tuple of two items makes the formatting itself raise
    [TypeError]; no [ValueError] is raised.  The registry is unchanged. *)
Theorem C10_tuple_argument_raises_TypeError (self : Server.t) (name : option string) :
  Server.register_function str (Data (VTuple [VInt 1; VInt 2])) name self =
    ([], self,
     Raise (TypeError, [VStr "not all arguments converted during string formatting"])).
Proof. reflexivity. Qed.

End Registration.

(** ** The wait loop of the client *)

Lemma Qltb_true (a b : Q) : Proxy.Qltb a b = true <-> (a < b)%Q.
Proof.
  unfold Proxy.Qltb. rewrite negb_true_iff. split.
  - intros H. apply Qnot_le_lt. intros Hle. apply Qle_bool_iff in Hle. congruence.
  - intros H. destruct (Qle_bool b a) eqn:E; [|reflexivity].
    apply Qle_bool_iff in E. exfalso. exact (Qlt_not_le _ _ H E).
Qed.

Lemma Qltb_false (a b : Q) : Proxy.Qltb a b = false <-> (b <= a)%Q.
Proof.
  unfold Proxy.Qltb. rewrite negb_false_iff. apply Qle_bool_iff.
Qed.

Lemma wait_loop_received start_time elapsed script self :
  Proxy._is_received self = true ->
  Proxy.wait_loop start_time elapsed script self = ([], self, Return elapsed).
Proof. intros H. destruct script; cbn; rewrite H; reflexivity. Qed.

Lemma on_response_other self b message c :
  properties message !! "correlation_id" = Some c ->
  c <> corr_value (Proxy._corr_id self) ->
  Proxy._on_response b message self = ([], self, Return tt).
Proof.
  intros Hp Hc. unfold Proxy._on_response, bind, get, getitem. rewrite Hp. cbn.
  rewrite (corr_id_eq_false _ _ Hc). reflexivity.
Qed.

Lemma wait_loop_quiet start_time pending self before :
  Proxy._is_received self = false ->
  Proxy._corr_id self = Some pending ->
  Forall (quiet pending (Proxy._timeout self) start_time) before ->
  forall elapsed later, exists elapsed',
    Proxy.wait_loop start_time elapsed (before ++ later) self =
    Proxy.wait_loop start_time elapsed' later self.
Proof.
  intros Hrec Hcorr Hq. induction Hq as [|[ev now] before Hturn _ IH];
    intros elapsed later; [exists elapsed; reflexivity|].
  cbn [app Proxy.wait_loop]. rewrite Hrec.
  unfold quiet in Hturn. cbn in Hturn.
  destruct ev as [b message|e].
  - destruct Hturn as (c & Hp & Hc).
    unfold bind, try_except, Proxy.drain_events.
    rewrite (on_response_other self b message c Hp)
      by (rewrite Hcorr; exact Hc).
    cbn. destruct (IH elapsed later) as [elapsed' ->]. exists elapsed'.
    destruct (Proxy.wait_loop start_time elapsed' later self) as [[tr s] r].
    reflexivity.
  - destruct Hturn as (Ht & Hexp).
    unfold bind, try_except, Proxy.drain_events, raise, get, ret. cbn. rewrite Ht. cbn.
    destruct (Proxy.Qltb 0 (Proxy._timeout self)) eqn:Hpos; cbn.
    + rewrite (Hexp eq_refl). cbn.
      destruct (IH (now - start_time)%Q later) as [elapsed' ->]. exists elapsed'.
      destruct (Proxy.wait_loop start_time elapsed' later self) as [[tr s] r].
      reflexivity.
    + destruct (IH elapsed later) as [elapsed' ->]. exists elapsed'.
      destruct (Proxy.wait_loop start_time elapsed' later self) as [[tr s] r].
      reflexivity.
Qed.

Lemma wait_loop_match start_time elapsed self b message now later :
  Proxy._is_received self = false ->
  properties message !! "correlation_id" = Some (corr_value (Proxy._corr_id self)) ->
  Proxy.wait_loop start_time elapsed ((Delivered b message, now) :: later) self =
    ([Ack message], Proxy.set_is_received true (Proxy.set_response b self),
     Return elapsed).
Proof.
  intros Hrec Hp. cbn [Proxy.wait_loop]. rewrite Hrec.
  unfold bind, try_except, Proxy.drain_events.
  rewrite (on_response_match self b message Hp). cbn.
  rewrite wait_loop_received by reflexivity. reflexivity.
Qed.

Lemma request_after_wait ERROR func_name func_args uuid4 start_time script self
    tr self' elapsed items payload status :
  Proxy._wait_for_result start_time script (Proxy.set_corr_id (Some uuid4) self)
    = (tr, self', Return elapsed) ->
  Proxy.response self' = Plain (VDict items) ->
  items_lookup items "result" = Some payload ->
  items_lookup items "status" = Some status ->
  Proxy.__request ERROR func_name func_args uuid4 start_time script self =
    (Publish (VStr ("server_" +:+ Proxy._server_id self +:+ "_ex"))
       (request_body func_name func_args)
       (<["reply_to" := VStr (Proxy._reply_id self)]>
          (<["correlation_id" := VStr uuid4]> ∅)) :: tr,
     Proxy.set_is_received false self',
     if eq_str status ERROR then Raise (RemoteException, [payload])
     else Return payload).
Proof.
  intros Hw Hresp Hres Hst.
  unfold Proxy.__request, bind, get, modify, emit, subscript, ret, raise. cbn.
  rewrite Hw. cbn. rewrite Hresp, Hres. cbn. rewrite Hst. cbn.
  destruct (eq_str status ERROR); cbn; rewrite ?app_nil_r; reflexivity.
Qed.

(** C1: when, after turns that leave the call waiting, a Response with the
    correlation id of the call arrives, [__request] returns its payload
    unchanged if its status is OK, and raises [RemoteException] built on the
    payload, without returning, if its status is ERROR. *)
Theorem C1_response_is_returned_or_raised
    (OK ERROR : string) (self : Proxy.t) (func_name : string)
    (func_args : list value) (uuid4 : string) (start_time : Q)
    (before later : list (drain_event * Q)) (message : Message) (now : Q)
    (status : string) (payload : value) :
  OK <> ERROR ->
  Proxy._is_received self = false ->
  Forall (quiet uuid4 (Proxy._timeout self) start_time) before ->
  properties message !! "correlation_id" = Some (VStr uuid4) ->
  let script := before ++ (Delivered (response_body status payload) message, now) :: later in
  (status = OK ->
   answer (Proxy.__request ERROR func_name func_args uuid4 start_time script self)
     = Return payload) /\
  (status = ERROR ->
   answer (Proxy.__request ERROR func_name func_args uuid4 start_time script self)
     = Raise (RemoteException, [payload])).
Proof.
  intros Hne Hrec Hq Hp script.
  set (self1 := Proxy.set_corr_id (Some uuid4) self).
  destruct (wait_loop_quiet start_time uuid4 self1 before Hrec eq_refl Hq 0%Q
              ((Delivered (response_body status payload) message, now) :: later))
    as [elapsed Hwait].
  rewrite (wait_loop_match start_time elapsed self1 _ message now later Hrec Hp) in Hwait.
  pose proof (request_after_wait ERROR func_name func_args uuid4 start_time script self
                _ _ _ [("result", payload); ("status", VStr status)] payload (VStr status)
                Hwait eq_refl eq_refl eq_refl) as Hreq.
  rewrite Hreq. cbn [answer snd]. split; intros ->.
  - cbn. destruct (String.eqb OK ERROR) eqn:E; [|reflexivity].
    apply String.eqb_eq in E. contradiction.
  - cbn. rewrite String.eqb_refl. reflexivity.
Qed.

Lemma C1_witness :
  answer (Proxy.__request "error" "f" [VInt 1] "id-7" 0%Q
            ([(Fails (socket_timeout, []), 1%Q)] ++
             (Delivered (response_body "error" (VStr "boom"))
                (message_with (VStr "id-7") VNone), 2%Q) :: [])
            (Proxy.__init__ "srv" "guest" "u0" 3%Q))
  = Raise (RemoteException, [VStr "boom"]).
Proof.
  apply (C1_response_is_returned_or_raised "ok" "error"
           (Proxy.__init__ "srv" "guest" "u0" 3%Q) "f" [VInt 1] "id-7" 0%Q
           [(Fails (socket_timeout, []), 1%Q)] [] (message_with (VStr "id-7") VNone)
           2%Q "error" (VStr "boom")).
  - discriminate.
  - reflexivity.
  - repeat constructor.
  - reflexivity.
  - reflexivity.
Defined.

Lemma wait_loop_timeout_step start_time elapsed now script self :
  Proxy._is_received self = false ->
  Proxy.Qltb 0 (Proxy._timeout self) = true ->
  Proxy.Qltb (Proxy._timeout self) (now - start_time)%Q = false ->
  Proxy.wait_loop start_time elapsed ((Fails (socket_timeout, []), now) :: script) self =
    Proxy.wait_loop start_time (now - start_time)%Q script self.
Proof.
  intros Hrec Hpos Hexp. cbn [Proxy.wait_loop]. rewrite Hrec.
  unfold bind, try_except, Proxy.drain_events, raise, get, ret. cbn.
  rewrite Hpos. cbn. rewrite Hexp. cbn.
  destruct (Proxy.wait_loop start_time (now - start_time)%Q script self) as [[tr s] r].
  reflexivity.
Qed.

Lemma wait_loop_timeout_raise start_time elapsed now script self :
  Proxy._is_received self = false ->
  Proxy.Qltb 0 (Proxy._timeout self) = true ->
  Proxy.Qltb (Proxy._timeout self) (now - start_time)%Q = true ->
  Proxy.wait_loop start_time elapsed ((Fails (socket_timeout, []), now) :: script) self =
    ([], self, Raise (RpcTimeout, [VStr "RPC Request timeout"])).
Proof.
  intros Hrec Hpos Hexp. cbn [Proxy.wait_loop]. rewrite Hrec.
  unfold bind, try_except, Proxy.drain_events, raise, get, ret. cbn.
  rewrite Hpos. cbn. rewrite Hexp. reflexivity.
Qed.

Lemma wait_loop_silence self start_time tick :
  Proxy._is_received self = false ->
  (0 < Proxy._timeout self)%Q ->
  forall readings previous elapsed,
    (previous - start_time <= Proxy._timeout self)%Q ->
    ticks_within tick previous readings ->
    Exists (fun now => (Proxy._timeout self < now - start_time)%Q) readings ->
    exists waited now later,
      readings = waited ++ now :: later /\
      Forall (fun r => (r - start_time <= Proxy._timeout self)%Q) waited /\
      Proxy.wait_loop start_time elapsed (silence waited) self = ([], self, Blocked) /\
      (forall rest,
         Proxy.wait_loop start_time elapsed (silence (waited ++ now :: rest)) self =
           ([], self, Raise (RpcTimeout, [VStr "RPC Request timeout"]))) /\
      (Proxy._timeout self < now - start_time)%Q /\
      (now - start_time <= Proxy._timeout self + tick)%Q.
Proof.
  intros Hrec Hpos.
  assert (Hposb : Proxy.Qltb 0 (Proxy._timeout self) = true) by (apply Qltb_true, Hpos).
  induction readings as [|r readings IH]; intros previous elapsed Hprev Hticks Hex.
  - inversion Hex.
  - destruct Hticks as [Htick Hticks].
    destruct (Proxy.Qltb (Proxy._timeout self) (r - start_time)%Q) eqn:Hexp.
    + exists [], r, readings. apply Qltb_true in Hexp.
      split; [reflexivity|]. split; [constructor|].
      split; [cbn; rewrite Hrec; reflexivity|].
      split; [|split; [exact Hexp | lra]].
      intros rest. cbn [app silence map].
      apply wait_loop_timeout_raise; [assumption | assumption | apply Qltb_true, Hexp].
    + pose proof Hexp as Hle. apply Qltb_false in Hle.
      assert (Hex' : Exists (fun now => (Proxy._timeout self < now - start_time)%Q) readings).
      { inversion Hex as [? ? Hhead | ? ? Htail]; subst; [|exact Htail].
        exfalso. exact (Qlt_not_le _ _ Hhead Hle). }
      destruct (IH r (r - start_time)%Q Hle Hticks Hex')
        as (waited & now & later & -> & Hall & Hblocked & Hraise & Hlo & Hhi).
      exists (r :: waited), now, later.
      split; [reflexivity|]. split; [constructor; assumption|].
      split; [|split; [|split; assumption]].
      * cbn [silence map]. rewrite wait_loop_timeout_step by assumption. exact Hblocked.
      * intros rest. cbn [app silence map].
        rewrite wait_loop_timeout_step by assumption. apply Hraise.
Qed.

(** C3: with a timeout [t > 0] and a server that never responds (every
    call of [drain_events] ends in [socket.timeout]), the wait loop raises
    [RpcTimeout]; it raises at the first reading of the clock at which the
    time elapsed since the start of the wait exceeds [t], so the elapsed
    time at the raise is at least [t], and at most [t] plus one tick, a
    tick bounding the time from one reading of the clock to the next. *)
Theorem C3_timeout_within_one_tick
    (self : Proxy.t) (start_time tick : Q) (readings : list Q) :
  Proxy._is_received self = false ->
  (0 < Proxy._timeout self)%Q ->
  ticks_within tick start_time readings ->
  Exists (fun now => (Proxy._timeout self < now - start_time)%Q) readings ->
  Proxy._wait_for_result start_time (silence readings) self =
    ([], self, Raise (RpcTimeout, [VStr "RPC Request timeout"])) /\
  exists waited now later,
    readings = waited ++ now :: later /\
    Proxy._wait_for_result start_time (silence waited) self = ([], self, Blocked) /\
    Proxy._wait_for_result start_time (silence (waited ++ [now])) self =
      ([], self, Raise (RpcTimeout, [VStr "RPC Request timeout"])) /\
    (Proxy._timeout self <= now - start_time)%Q /\
    (now - start_time <= Proxy._timeout self + tick)%Q.
Proof.
  intros Hrec Hpos Hticks Hex.
  assert (Hprev : (start_time - start_time <= Proxy._timeout self)%Q) by lra.
  destruct (wait_loop_silence self start_time tick Hrec Hpos readings start_time 0%Q
              Hprev Hticks Hex)
    as (waited & now & later & -> & Hall & Hblocked & Hraise & Hlo & Hhi).
  unfold Proxy._wait_for_result. split; [apply Hraise|].
  exists waited, now, later.
  split; [reflexivity|]. split; [exact Hblocked|]. split; [apply Hraise|].
  split; [lra | exact Hhi].
Qed.

Lemma C3_witness :
  Proxy._wait_for_result 10%Q (silence [11%Q; 12%Q; 13%Q; 14%Q; 15%Q])
    (Proxy.__init__ "srv" "guest" "u0" 3%Q) =
    ([], Proxy.__init__ "srv" "guest" "u0" 3%Q,
     Raise (RpcTimeout, [VStr "RPC Request timeout"])).
Proof.
  apply (C3_timeout_within_one_tick (Proxy.__init__ "srv" "guest" "u0" 3%Q)
           10%Q 1%Q [11%Q; 12%Q; 13%Q; 14%Q; 15%Q]).
  - reflexivity.
  - reflexivity.
  - cbn. repeat split; discriminate.
  - right. right. right. left. reflexivity.
Defined.

(** ** Attribute paths *)





Lemma request_publishes_first ERROR func_name func_args uuid4 start_time script self :
  exists tr,
    trace (Proxy.__request ERROR func_name func_args uuid4 start_time script self) =
      Publish (VStr ("server_" +:+ Proxy._server_id self +:+ "_ex"))
        (request_body func_name func_args)
        (<["reply_to" := VStr (Proxy._reply_id self)]>
           (<["correlation_id" := VStr uuid4]> ∅)) :: tr.
Proof.
  unfold Proxy.__request, bind, get, modify, emit. cbn.
  destruct (Proxy._wait_for_result start_time script
              (Proxy.set_corr_id (Some uuid4) self)) as [[tr s] [el|e|]];
    cbn; try (eexists; reflexivity).
  unfold subscript, ret, raise.
  destruct (Proxy.response s) as [[| | | |items|]| |]; cbn;
    try (eexists; reflexivity).
  destruct (items_lookup items "result"); cbn; try (eexists; reflexivity).
  destruct (items_lookup items "status"); cbn; try (eexists; reflexivity).
  destruct (eq_str _ _); cbn; eexists; reflexivity.
Qed.




(** * Further properties of the code *)

(** ** The client *)

Lemma use_server_result sid timeout self :
  Proxy.use_server sid timeout self =
    ([],
     Proxy.set_timeout (default (Proxy._timeout self) timeout)
       (Proxy.set_server_id (default (Proxy._server_id self) sid) self),
     Return tt).
Proof.
  destruct self as [a b c d e f].
  unfold Proxy.use_server, bind, modify, ret. destruct sid, timeout; reflexivity.
Qed.

(** X1: [use_server] changes only what it is given: with [None] the server
    id or the timeout stays, with a value it is replaced; the correlation
    id, the received flag, the stored response and the reply address are
    untouched.  The next call is published to the exchange of the server
    now selected, with the reply address of the proxy and the fresh
    correlation id. *)
Theorem X1_use_server_retargets_next_call
    (ERROR : string) (self : Proxy.t) (sid : option string) (timeout : option Q)
    (func_name : string) (func_args : list value) (uuid4 : string)
    (start_time : Q) (script : list (drain_event * Q)) :
  let self' := final (Proxy.use_server sid timeout self) in
  answer (Proxy.use_server sid timeout self) = Return tt /\
  trace (Proxy.use_server sid timeout self) = [] /\
  Proxy._server_id self' = default (Proxy._server_id self) sid /\
  Proxy._timeout self' = default (Proxy._timeout self) timeout /\
  Proxy._is_received self' = Proxy._is_received self /\
  Proxy._corr_id self' = Proxy._corr_id self /\
  Proxy.response self' = Proxy.response self /\
  Proxy._reply_id self' = Proxy._reply_id self /\
  exists tr,
    trace (Proxy.__request ERROR func_name func_args uuid4 start_time script self') =
      Publish (VStr ("server_" +:+ default (Proxy._server_id self) sid +:+ "_ex"))
        (request_body func_name func_args) (request_properties self uuid4) :: tr.
Proof.
  intros self'. subst self'. rewrite use_server_result. cbn.
  repeat (split; [reflexivity|]).
  destruct (request_publishes_first ERROR func_name func_args uuid4 start_time script
              (Proxy.set_timeout (default (Proxy._timeout self) timeout)
                 (Proxy.set_server_id (default (Proxy._server_id self) sid) self)))
    as [tr Htr].
  exists tr. exact Htr.
Qed.

Lemma wait_loop_no_deadline start_time elapsed now script self :
  Proxy._is_received self = false ->
  Proxy.Qltb 0 (Proxy._timeout self) = false ->
  Proxy.wait_loop start_time elapsed ((Fails (socket_timeout, []), now) :: script) self =
    Proxy.wait_loop start_time elapsed script self.
Proof.
  intros Hrec Hpos. cbn [Proxy.wait_loop]. rewrite Hrec.
  unfold bind, try_except, Proxy.drain_events, raise, get, ret. cbn.
  rewrite Hpos. cbn.
  destruct (Proxy.wait_loop start_time elapsed script self) as [[tr s] r].
  reflexivity.
Qed.

Lemma wait_loop_still_waiting start_time self readings :
  Proxy._is_received self = false ->
  (Proxy._timeout self <= 0)%Q \/
  Forall (fun now => (now - start_time <= Proxy._timeout self)%Q) readings ->
  forall elapsed,
    Proxy.wait_loop start_time elapsed (silence readings) self = ([], self, Blocked).
Proof.
  intros Hrec Hcase. induction readings as [|r readings IH]; intros elapsed.
  - cbn. rewrite Hrec. reflexivity.
  - cbn [silence map].
    destruct (Proxy.Qltb 0 (Proxy._timeout self)) eqn:Hpos.
    + destruct Hcase as [Hle | Hall].
      * apply Qltb_true in Hpos. exfalso. exact (Qlt_not_le _ _ Hpos Hle).
      * inversion Hall as [|? ? Hr Hrest]; subst.
        rewrite wait_loop_timeout_step;
          [apply IH; right; exact Hrest | exact Hrec | exact Hpos |
           apply Qltb_false; exact Hr].
    + rewrite wait_loop_no_deadline by assumption.
      apply IH. destruct Hcase as [Hle | Hall]; [left; exact Hle|].
      right. inversion Hall; assumption.
Qed.

(** X2: the wait loop never gives up early.  With a timeout of zero or
    less it waits for ever, whatever the clock reads; with a positive
    timeout it keeps waiting as long as the elapsed time read at each
    [socket.timeout] is not greater than the timeout (the comparison is
    strict, so an elapsed time equal to the timeout does not end the
    wait).  Nothing is published or acknowledged and the proxy is
    unchanged. *)
Theorem X2_wait_does_not_time_out_early
    (self : Proxy.t) (start_time : Q) (readings : list Q) :
  Proxy._is_received self = false ->
  (Proxy._timeout self <= 0)%Q \/
  Forall (fun now => (now - start_time <= Proxy._timeout self)%Q) readings ->
  Proxy._wait_for_result start_time (silence readings) self = ([], self, Blocked).
Proof.
  intros Hrec Hcase. apply wait_loop_still_waiting; assumption.
Qed.

Lemma X2_witness :
  Proxy._wait_for_result 10%Q (silence [11%Q; 12%Q; 13%Q]) proxy_fresh =
    ([], proxy_fresh, Blocked).
Proof.
  apply (X2_wait_does_not_time_out_early proxy_fresh 10%Q [11%Q; 12%Q; 13%Q]).
  - reflexivity.
  - right. repeat constructor; discriminate.
Defined.

Lemma request_wait_raises ERROR func_name func_args uuid4 start_time script self
    tr self' e :
  Proxy._wait_for_result start_time script (Proxy.set_corr_id (Some uuid4) self)
    = (tr, self', Raise e) ->
  Proxy.__request ERROR func_name func_args uuid4 start_time script self =
    (request_publish self func_name func_args uuid4 :: tr, self', Raise e).
Proof.
  intros Hw. unfold Proxy.__request, bind, get, modify, emit. cbn.
  rewrite Hw. reflexivity.
Qed.

Lemma request_completes ERROR self func_name func_args uuid4 start_time
    before later b message now items payload status :
  Proxy._is_received self = false ->
  Forall (quiet uuid4 (Proxy._timeout self) start_time) before ->
  properties message !! "correlation_id" = Some (VStr uuid4) ->
  b = Plain (VDict items) ->
  items_lookup items "result" = Some payload ->
  items_lookup items "status" = Some status ->
  Proxy.__request ERROR func_name func_args uuid4 start_time
    (before ++ (Delivered b message, now) :: later) self =
    ([request_publish self func_name func_args uuid4; Ack message],
     Proxy.set_is_received false
       (Proxy.set_response b (Proxy.set_corr_id (Some uuid4) self)),
     if eq_str status ERROR then Raise (RemoteException, [payload])
     else Return payload).
Proof.
  intros Hrec Hq Hp -> Hres Hst.
  set (self1 := Proxy.set_corr_id (Some uuid4) self).
  destruct (wait_loop_quiet start_time uuid4 self1 before Hrec eq_refl Hq 0%Q
              ((Delivered (Plain (VDict items)) message, now) :: later))
    as [elapsed Hwait].
  rewrite (wait_loop_match start_time elapsed self1 _ message now later Hrec Hp) in Hwait.
  rewrite (request_after_wait ERROR func_name func_args uuid4 start_time _ self
             _ _ _ items payload status Hwait eq_refl Hres Hst).
  reflexivity.
Qed.

(** X3: when a call times out, [__request] has published the request and
    nothing else, and it leaves the proxy as it was but for the correlation
    id of the abandoned call.  A reply to that call which arrives during
    the next call is neither stored nor acknowledged: the next call ends
    with its own response. *)
Theorem X3_timed_out_call_and_its_late_reply
    (ERROR : string) (self : Proxy.t) (func_name : string) (func_args : list value)
    (uuid4 : string) (start_time tick : Q) (readings : list Q) :
  Proxy._is_received self = false ->
  (0 < Proxy._timeout self)%Q ->
  ticks_within tick start_time readings ->
  Exists (fun now => (Proxy._timeout self < now - start_time)%Q) readings ->
  let r := Proxy.__request ERROR func_name func_args uuid4 start_time
             (silence readings) self in
  r = ([request_publish self func_name func_args uuid4],
       Proxy.set_corr_id (Some uuid4) self,
       Raise (RpcTimeout, [VStr "RPC Request timeout"])) /\
  forall func_name' func_args' uuid4' start_time' late_body late_message now1
         message now2 later status payload,
    uuid4' <> uuid4 ->
    properties late_message !! "correlation_id" = Some (VStr uuid4) ->
    properties message !! "correlation_id" = Some (VStr uuid4') ->
    Proxy.__request ERROR func_name' func_args' uuid4' start_time'
      ((Delivered late_body late_message, now1)
         :: (Delivered (response_body status payload) message, now2) :: later)
      (final r) =
      ([request_publish self func_name' func_args' uuid4'; Ack message],
       Proxy.set_is_received false
         (Proxy.set_response (response_body status payload)
            (Proxy.set_corr_id (Some uuid4') self)),
       request_outcome ERROR status payload).
Proof.
  intros Hrec Hpos Hticks Hex r.
  assert (Hprev : (start_time - start_time <= Proxy._timeout self)%Q) by lra.
  destruct (wait_loop_silence (Proxy.set_corr_id (Some uuid4) self) start_time tick
              Hrec Hpos readings start_time 0%Q Hprev Hticks Hex)
    as (waited & now & later0 & Hsplit & _ & _ & Hraise & _).
  assert (Hr : r = ([request_publish self func_name func_args uuid4],
                    Proxy.set_corr_id (Some uuid4) self,
                    Raise (RpcTimeout, [VStr "RPC Request timeout"]))).
  { subst r. apply request_wait_raises. unfold Proxy._wait_for_result.
    rewrite Hsplit. apply Hraise. }
  split; [exact Hr|].
  intros func_name' func_args' uuid4' start_time' late_body late_message now1
    message now2 later status payload Hne Hlate Hown.
  rewrite Hr. cbn [final fst snd].
  change ((Delivered late_body late_message, now1)
            :: (Delivered (response_body status payload) message, now2) :: later)
    with ([(Delivered late_body late_message, now1)]
            ++ (Delivered (response_body status payload) message, now2) :: later).
  rewrite (request_completes ERROR (Proxy.set_corr_id (Some uuid4) self)
             func_name' func_args' uuid4' start_time'
             [(Delivered late_body late_message, now1)] later
             (response_body status payload) message now2
             [("result", payload); ("status", VStr status)] payload (VStr status)
             Hrec).
  - reflexivity.
  - constructor; [|constructor]. exists (VStr uuid4). split; [exact Hlate|].
    intros [= E]. apply Hne. symmetry. exact E.
  - exact Hown.
  - reflexivity.
  - reflexivity.
  - reflexivity.
Qed.

Lemma X3_witness :
  Proxy.__request "error" "f" [] "id-1" 10%Q
    (silence [11%Q; 12%Q; 13%Q; 14%Q]) proxy_fresh =
    ([request_publish proxy_fresh "f" [] "id-1"],
     Proxy.set_corr_id (Some "id-1") proxy_fresh,
     Raise (RpcTimeout, [VStr "RPC Request timeout"])).
Proof.
  apply (X3_timed_out_call_and_its_late_reply "error" proxy_fresh "f" [] "id-1"
           10%Q 1%Q [11%Q; 12%Q; 13%Q; 14%Q]).
  - reflexivity.
  - reflexivity.
  - cbn. repeat split; discriminate.
  - right. right. right. left. reflexivity.
Defined.

(** X4: a call that gets its response publishes one request and
    acknowledges one message, the matching one, and leaves the received
    flag cleared; so calls made one after the other on the same proxy each
    end with their own response. *)
Theorem X4_calls_in_sequence
    (ERROR : string) (self : Proxy.t)
    (f1 f2 : string) (a1 a2 : list value) (u1 u2 : string) (t1 t2 : Q)
    (before1 later1 before2 later2 : list (drain_event * Q))
    (m1 m2 : Message) (n1 n2 : Q) (s1 s2 : string) (p1 p2 : value) :
  Proxy._is_received self = false ->
  Forall (quiet u1 (Proxy._timeout self) t1) before1 ->
  Forall (quiet u2 (Proxy._timeout self) t2) before2 ->
  properties m1 !! "correlation_id" = Some (VStr u1) ->
  properties m2 !! "correlation_id" = Some (VStr u2) ->
  let r1 := Proxy.__request ERROR f1 a1 u1 t1
              (before1 ++ (Delivered (response_body s1 p1) m1, n1) :: later1) self in
  let r2 := Proxy.__request ERROR f2 a2 u2 t2
              (before2 ++ (Delivered (response_body s2 p2) m2, n2) :: later2)
              (final r1) in
  trace r1 = [request_publish self f1 a1 u1; Ack m1] /\
  answer r1 = request_outcome ERROR s1 p1 /\
  Proxy._is_received (final r1) = false /\
  trace r2 = [request_publish self f2 a2 u2; Ack m2] /\
  answer r2 = request_outcome ERROR s2 p2 /\
  Proxy._is_received (final r2) = false.
Proof.
  intros Hrec Hq1 Hq2 Hm1 Hm2 r1 r2.
  assert (H1 : r1 = ([request_publish self f1 a1 u1; Ack m1],
                     Proxy.set_is_received false
                       (Proxy.set_response (response_body s1 p1)
                          (Proxy.set_corr_id (Some u1) self)),
                     request_outcome ERROR s1 p1)).
  { subst r1.
    apply (request_completes ERROR self f1 a1 u1 t1 before1 later1 _ m1 n1
             [("result", p1); ("status", VStr s1)] p1 (VStr s1));
      try assumption; reflexivity. }
  assert (H2 : r2 = ([request_publish self f2 a2 u2; Ack m2],
                     Proxy.set_is_received false
                       (Proxy.set_response (response_body s2 p2)
                          (Proxy.set_corr_id (Some u2) (final r1))),
                     request_outcome ERROR s2 p2)).
  { subst r2. rewrite H1. cbn [final fst snd].
    rewrite (request_completes ERROR _ f2 a2 u2 t2 before2 later2 _ m2 n2
               [("result", p2); ("status", VStr s2)] p2 (VStr s2));
      try assumption; reflexivity. }
  rewrite H2, H1. repeat split; reflexivity.
Qed.

Lemma X4_witness :
  answer (Proxy.__request "error" "g" [] "id-2" 0%Q
            ([] ++ (Delivered (response_body "ok" (VInt 2))
                      (message_with (VStr "id-2") VNone), 1%Q) :: [])
            (final (Proxy.__request "error" "f" [] "id-1" 0%Q
                      ([] ++ (Delivered (response_body "ok" (VInt 1))
                                (message_with (VStr "id-1") VNone), 1%Q) :: [])
                      proxy_fresh)))
  = request_outcome "error" "ok" (VInt 2).
Proof.
  apply (X4_calls_in_sequence "error" proxy_fresh "f" "g" [] [] "id-1" "id-2"
           0%Q 0%Q [] [] [] []
           (message_with (VStr "id-1") VNone) (message_with (VStr "id-2") VNone)
           1%Q 1%Q "ok" "ok" (VInt 1) (VInt 2)).
  - reflexivity.
  - constructor.
  - constructor.
  - reflexivity.
  - reflexivity.
Defined.

Lemma wait_loop_raises start_time elapsed ev now later self e :
  Proxy._is_received self = false ->
  Proxy.drain_events ev self = ([], self, Raise e) ->
  is_socket_timeout e = false ->
  Proxy.wait_loop start_time elapsed ((ev, now) :: later) self = ([], self, Raise e).
Proof.
  intros Hrec Hd He. cbn [Proxy.wait_loop]. rewrite Hrec.
  unfold bind, try_except. rewrite Hd, He. reflexivity.
Qed.

Lemma request_raises_from_drain ERROR self func_name func_args uuid4 start_time
    before ev now later e :
  Proxy._is_received self = false ->
  Forall (quiet uuid4 (Proxy._timeout self) start_time) before ->
  Proxy.drain_events ev (Proxy.set_corr_id (Some uuid4) self) =
    ([], Proxy.set_corr_id (Some uuid4) self, Raise e) ->
  is_socket_timeout e = false ->
  Proxy.__request ERROR func_name func_args uuid4 start_time
    (before ++ (ev, now) :: later) self =
    ([request_publish self func_name func_args uuid4],
     Proxy.set_corr_id (Some uuid4) self, Raise e).
Proof.
  intros Hrec Hq Hd He.
  set (self1 := Proxy.set_corr_id (Some uuid4) self) in *.
  destruct (wait_loop_quiet start_time uuid4 self1 before Hrec eq_refl Hq 0%Q
              ((ev, now) :: later)) as [elapsed Hwait].
  rewrite (wait_loop_raises start_time elapsed ev now later self1 e Hrec Hd He) in Hwait.
  apply request_wait_raises. exact Hwait.
Qed.

(** X5: an exception that comes out of [drain_events] and is not
    [socket.timeout] is not handled by the wait loop: it leaves [__request]
    as it is, after the request was published; the proxy keeps the
    correlation id of the call and is otherwise unchanged. *)
Theorem X5_transport_fault_leaves_the_call
    (ERROR : string) (self : Proxy.t) (func_name : string) (func_args : list value)
    (uuid4 : string) (start_time : Q) (before later : list (drain_event * Q))
    (now : Q) (e : exn) :
  Proxy._is_received self = false ->
  Forall (quiet uuid4 (Proxy._timeout self) start_time) before ->
  is_socket_timeout e = false ->
  Proxy.__request ERROR func_name func_args uuid4 start_time
    (before ++ (Fails e, now) :: later) self =
    ([request_publish self func_name func_args uuid4],
     Proxy.set_corr_id (Some uuid4) self, Raise e).
Proof.
  intros Hrec Hq He. apply request_raises_from_drain; try assumption. reflexivity.
Qed.

Lemma X5_witness :
  Proxy.__request "error" "f" [] "id-1" 0%Q
    ([] ++ (Fails (IOError, []), 1%Q) :: []) proxy_fresh =
    ([request_publish proxy_fresh "f" [] "id-1"],
     Proxy.set_corr_id (Some "id-1") proxy_fresh, Raise (IOError, [])).
Proof.
  apply (X5_transport_fault_leaves_the_call "error" proxy_fresh "f" [] "id-1" 0%Q
           [] [] 1%Q (IOError, [])).
  - reflexivity.
  - constructor.
  - reflexivity.
Defined.

(** X6: a delivery on the reply channel that has no [correlation_id]
    property makes [_on_response] raise [KeyError]; the wait loop does not
    handle it, so the call in progress ends with that [KeyError]; nothing
    is stored or acknowledged. *)
Theorem X6_reply_without_correlation_id
    (ERROR : string) (self : Proxy.t) (func_name : string) (func_args : list value)
    (uuid4 : string) (start_time : Q) (before later : list (drain_event * Q))
    (b : body) (message : Message) (now : Q) :
  Proxy._is_received self = false ->
  Forall (quiet uuid4 (Proxy._timeout self) start_time) before ->
  properties message !! "correlation_id" = None ->
  Proxy._on_response b message self =
    ([], self, Raise (KeyError, [VStr "correlation_id"])) /\
  Proxy.__request ERROR func_name func_args uuid4 start_time
    (before ++ (Delivered b message, now) :: later) self =
    ([request_publish self func_name func_args uuid4],
     Proxy.set_corr_id (Some uuid4) self,
     Raise (KeyError, [VStr "correlation_id"])).
Proof.
  intros Hrec Hq Hp.
  assert (Hon : forall s, Proxy._on_response b message s =
                          ([], s, Raise (KeyError, [VStr "correlation_id"]))).
  { intros s. unfold Proxy._on_response, bind, get, getitem. rewrite Hp. reflexivity. }
  split; [apply Hon|].
  apply request_raises_from_drain; try assumption; [|reflexivity].
  cbn [Proxy.drain_events]. apply Hon.
Qed.

Lemma X6_witness :
  Proxy._on_response (Plain VNone) {| properties := ∅ |} proxy_fresh =
    ([], proxy_fresh, Raise (KeyError, [VStr "correlation_id"])).
Proof.
  apply (X6_reply_without_correlation_id "error" proxy_fresh "f" [] "id-1" 0%Q
           [] [] (Plain VNone) {| properties := ∅ |} 1%Q).
  - reflexivity.
  - constructor.
  - reflexivity.
Defined.

Lemma request_after_wait_bad ERROR func_name func_args uuid4 start_time script self
    tr self' elapsed e :
  Proxy._wait_for_result start_time script (Proxy.set_corr_id (Some uuid4) self)
    = (tr, self', Return elapsed) ->
  subscript_error (Proxy.response self') "result" = Some e ->
  Proxy.__request ERROR func_name func_args uuid4 start_time script self =
    (request_publish self func_name func_args uuid4 :: tr, self', Raise e).
Proof.
  intros Hw He.
  unfold Proxy.__request, bind, get, modify, emit, subscript, ret, raise. cbn.
  rewrite Hw. cbn. unfold subscript_error in He.
  destruct (Proxy.response self') as [[| | | |items|]| |]; cbn;
    try (injection He as <-; rewrite ?app_nil_r; reflexivity).
  destruct (items_lookup items "result"); [discriminate|].
  injection He as <-. cbn. rewrite ?app_nil_r. reflexivity.
Qed.

(** X7: when the matching reply is a dictionary without the key [result],
    [__request] raises [KeyError] after the message was acknowledged, and
    the received flag stays set.  Every later call on the proxy then
    publishes its request and at once fails on the same stored body: it
    consults no event of its own script and acknowledges nothing. *)
Theorem X7_unreadable_reply_sticks
    (ERROR : string) (self : Proxy.t) (func_name : string) (func_args : list value)
    (uuid4 : string) (start_time : Q) (before later : list (drain_event * Q))
    (items : list (string * value)) (message : Message) (now : Q) :
  Proxy._is_received self = false ->
  Forall (quiet uuid4 (Proxy._timeout self) start_time) before ->
  properties message !! "correlation_id" = Some (VStr uuid4) ->
  items_lookup items "result" = None ->
  let b := Plain (VDict items) in
  let r := Proxy.__request ERROR func_name func_args uuid4 start_time
             (before ++ (Delivered b message, now) :: later) self in
  r = ([request_publish self func_name func_args uuid4; Ack message],
       Proxy.set_is_received true
         (Proxy.set_response b (Proxy.set_corr_id (Some uuid4) self)),
       Raise (KeyError, [VStr "result"])) /\
  forall func_name' func_args' uuid4' start_time' script',
    Proxy.__request ERROR func_name' func_args' uuid4' start_time' script' (final r) =
      ([request_publish self func_name' func_args' uuid4'],
       Proxy.set_corr_id (Some uuid4') (final r),
       Raise (KeyError, [VStr "result"])).
Proof.
  intros Hrec Hq Hp Hnone b r.
  set (self1 := Proxy.set_corr_id (Some uuid4) self).
  assert (He : subscript_error b "result" = Some (KeyError, [VStr "result"]))
    by (subst b; cbn; rewrite Hnone; reflexivity).
  assert (Hr : r = ([request_publish self func_name func_args uuid4; Ack message],
                    Proxy.set_is_received true (Proxy.set_response b self1),
                    Raise (KeyError, [VStr "result"]))).
  { subst r.
    destruct (wait_loop_quiet start_time uuid4 self1 before Hrec eq_refl Hq 0%Q
                ((Delivered b message, now) :: later)) as [elapsed Hwait].
    rewrite (wait_loop_match start_time elapsed self1 b message now later Hrec Hp)
      in Hwait.
    apply (request_after_wait_bad ERROR func_name func_args uuid4 start_time _ self
             _ _ _ _ Hwait). exact He. }
  split; [exact Hr|].
  intros func_name' func_args' uuid4' start_time' script'.
  rewrite Hr. cbn [final fst snd].
  rewrite (request_after_wait_bad ERROR func_name' func_args' uuid4' start_time' script'
             (Proxy.set_is_received true (Proxy.set_response b self1))
             [] (Proxy.set_corr_id (Some uuid4')
                   (Proxy.set_is_received true (Proxy.set_response b self1))) 0%Q
             (KeyError, [VStr "result"])).
  - reflexivity.
  - unfold Proxy._wait_for_result. apply wait_loop_received. reflexivity.
  - exact He.
Qed.

Lemma X7_witness :
  Proxy.__request "error" "f" [] "id-1" 0%Q
    ([] ++ (Delivered (Plain (VDict [("status", VStr "ok")]))
              (message_with (VStr "id-1") VNone), 1%Q) :: [])
    proxy_fresh =
    ([request_publish proxy_fresh "f" [] "id-1";
      Ack (message_with (VStr "id-1") VNone)],
     Proxy.set_is_received true
       (Proxy.set_response (Plain (VDict [("status", VStr "ok")]))
          (Proxy.set_corr_id (Some "id-1") proxy_fresh)),
     Raise (KeyError, [VStr "result"])).
Proof.
  apply (X7_unreadable_reply_sticks "error" proxy_fresh "f" [] "id-1" 0%Q [] []
           [("status", VStr "ok")] (message_with (VStr "id-1") VNone) 1%Q).
  - reflexivity.
  - constructor.
  - reflexivity.
  - reflexivity.
Defined.

(** ** The server *)

(** X8: serial and threaded mode answer a request with the same message.
    Whatever the handler does that the callback survives, the ResultSet the
    worker puts on the queue is published by the publisher thread as
    exactly the [publish] call the serial callback makes for the same
    request; and when the handler leaves through an exception that is not
    an [Exception], neither mode answers. *)
Theorem X8_threaded_answer_is_the_serial_answer
    (self : Server.t) (func_name : string) (func_args : list value)
    (message : Message) (cid rto : value) :
  delivered_with message cid rto ->
  (exists pre rs,
     Server.exec_func func_name func_args message self =
       (pre ++ [QueuePut rs],
        Server.set_result_queue (Server._result_queue self ++ [rs]) self,
        Return tt) /\
     Server._on_request (RpcRequest func_name func_args) message self =
       (pre ++ [Ack message; Publisher.publish rs], self, Return tt) /\
     Publisher.published
       (Publisher.exec [Publisher.ThreadStep; Publisher.ThreadStep]
          (Publisher.__init__ [rs])) = [Publisher.publish rs]) \/
  (exists e,
     is_Exception e = false /\
     Server.exec_func func_name func_args message self =
       ([Call func_name func_args], self, Raise e) /\
     Server._on_request (RpcRequest func_name func_args) message self =
       ([Call func_name func_args], self, Raise e)).
Proof.
  intros [Hcid Hrto].
  destruct (Server._func_dict self !! func_name) as [func|] eqn:Hf.
  - destruct (code_of func) as [code|] eqn:Hc.
    + destruct (code func_args) as [v|e] eqn:Hv.
      * left. eexists [Call func_name func_args], _.
        split; [eapply exec_func_returns; eassumption|].
        split; [eapply on_request_returns; eassumption | reflexivity].
      * destruct (is_Exception e) eqn:He.
        -- left. eexists [Call func_name func_args], _.
           split; [eapply exec_func_raises; eassumption|].
           split; [eapply on_request_raises; eassumption | reflexivity].
        -- right. exists e. split; [exact He|].
           split; [eapply exec_func_escapes | eapply on_request_escapes]; eassumption.
    + destruct func as [v| |]; try discriminate.
      left. eexists [], _.
      split; [eapply exec_func_not_callable; eassumption|].
      split; [eapply on_request_not_callable; eassumption | reflexivity].
  - left. eexists [], _.
    split; [eapply exec_func_unregistered; eassumption|].
    split; [eapply on_request_unregistered; eassumption | reflexivity].
Qed.

Lemma X8_witness :
  (exists pre rs,
     Server.exec_func "a.b.c" [VInt 1] message0 (server0 true) =
       (pre ++ [QueuePut rs],
        Server.set_result_queue (Server._result_queue (server0 true) ++ [rs])
          (server0 true),
        Return tt) /\
     Server._on_request (RpcRequest "a.b.c" [VInt 1]) message0 (server0 true) =
       (pre ++ [Ack message0; Publisher.publish rs], server0 true, Return tt) /\
     Publisher.published
       (Publisher.exec [Publisher.ThreadStep; Publisher.ThreadStep]
          (Publisher.__init__ [rs])) = [Publisher.publish rs]) \/
  (exists e,
     is_Exception e = false /\
     Server.exec_func "a.b.c" [VInt 1] message0 (server0 true) =
       ([Call "a.b.c" [VInt 1]], server0 true, Raise e) /\
     Server._on_request (RpcRequest "a.b.c" [VInt 1]) message0 (server0 true) =
       ([Call "a.b.c" [VInt 1]], server0 true, Raise e)).
Proof.
  apply (X8_threaded_answer_is_the_serial_answer (server0 true) "a.b.c" [VInt 1]
           message0 (VStr "id-1") (VStr "client_guest_ex_u0")).
  split; reflexivity.
Defined.

Section MoreRegistration.

Variable str : value -> string.

Lemma register_function_by_key self func name :
  match registration_key func name, code_of func with
  | Some key, Some _ =>
      Server.register_function str func name self =
        ([], Server.set_func_dict (<[key := func]> (Server._func_dict self)) self,
         Return tt)
  | _, _ =>
      final (Server.register_function str func name self) = self /\
      exists e, answer (Server.register_function str func name self) = Raise e
  end.
Proof.
  destruct func as [v|n code|code]; cbn.
  - destruct (registration_key (Data v) name);
      apply (register_function_rejects_data str self v name).
  - destruct name; reflexivity.
  - destruct name; cbn; [reflexivity|]. split; [reflexivity|]. eexists. reflexivity.
Qed.

(** X9: a handler that was registered is the one a request for its name
    reaches.  After [register_function(func, name)] with a callable [func],
    the registry maps the key (the name given, or [func.__name__]) to
    [func], whatever was registered under that key before, and every other
    name is as it was; a request for the key calls [func] with the
    arguments of the request and publishes what it returns. *)
Theorem X9_registered_handler_serves_its_name
    (self : Server.t) (func : pyobj) (name : option string) (key : string)
    (code : list value -> outcome) :
  registration_key func name = Some key ->
  code_of func = Some code ->
  let self' := final (Server.register_function str func name self) in
  answer (Server.register_function str func name self) = Return tt /\
  Server._func_dict self' !! key = Some func /\
  (forall other, other <> key ->
     Server._func_dict self' !! other = Server._func_dict self !! other) /\
  (forall func_args message cid rto v,
     delivered_with message cid rto ->
     code func_args = Returns v ->
     Server._on_request (RpcRequest key func_args) message self' =
       ([Call key func_args; Ack message;
         Publish rto (RpcResponse v) (<["correlation_id" := cid]> ∅)],
        self', Return tt)).
Proof.
  intros Hkey Hcode self'.
  pose proof (register_function_by_key self func name) as H.
  rewrite Hkey, Hcode in H. subst self'. rewrite H. cbn.
  split; [reflexivity|].
  assert (Hl : (<[key := func]> (Server._func_dict self) : gmap string pyobj) !! key
               = Some func) by apply lookup_insert_eq.
  split; [exact Hl|]. split.
  - intros other Hne. apply lookup_insert_ne. congruence.
  - intros func_args message cid rto v [Hcid Hrto] Hv.
    eapply on_request_returns; try eassumption.
Qed.

(** X10: the registry only ever holds callables.  Each call of
    [register_function] either stores a callable under its key and returns,
    or raises and leaves the server exactly as it was (a non-callable
    argument, or a callable without [__name__] registered with no name);
    so after any sequence of such calls on a new server every registered
    handler is callable, and the run flags are those of a new server. *)
Theorem X10_registry_holds_only_callables
    (server_id : string) (threaded : bool) (calls : list (pyobj * option string)) :
  let self := register_all str calls (Server.__init__ server_id threaded) in
  registry_callable self /\
  (forall name func, Server._func_dict self !! name = Some func ->
                     exists code, code_of func = Some code) /\
  Server._do_run self = true /\
  Server._is_stopped self = true /\
  Server._threaded self = threaded /\
  Server._result_queue self = [].
Proof.
  intros self. subst self. unfold register_all.
  set (Inv := fun s : Server.t =>
         registry_callable s /\ Server._do_run s = true /\
         Server._is_stopped s = true /\ Server._threaded s = threaded /\
         Server._result_queue s = []).
  assert (Hfold : forall cs s, Inv s ->
            Inv (fold_left
                   (fun s call => final (Server.register_function str call.1 call.2 s))
                   cs s)).
  { induction cs as [|[func name] cs IH]; intros s Hs; [exact Hs|].
    cbn [fold_left fst snd]. apply IH.
    destruct Hs as (Hreg & Hrun & Hstop & Hthr & Hq).
    split; [apply register_function_keeps_registry_callable; exact Hreg|].
    pose proof (register_function_by_key s func name) as H.
    destruct (registration_key func name) as [key|], (code_of func) as [code|].
    - rewrite H. cbn. repeat split; assumption.
    - destruct H as [H _]. rewrite H. repeat split; assumption.
    - destruct H as [H _]. rewrite H. repeat split; assumption.
    - destruct H as [H _]. rewrite H. repeat split; assumption. }
  assert (Hinit : Inv (Server.__init__ server_id threaded)).
  { unfold Inv. cbn. repeat split; try reflexivity.
    intros name func Hl.
    assert (E : (∅ : gmap string pyobj) !! name = None) by apply lookup_empty.
    unfold Server.__init__ in Hl. cbn [Server._func_dict] in Hl. congruence. }
  destruct (Hfold calls _ Hinit) as (Hreg & Hrun & Hstop & Hthr & Hq).
  split; [exact Hreg|]. split; [|repeat split; assumption].
  intros name func Hl. specialize (Hreg name func Hl).
  destruct func; [discriminate| |]; eexists; reflexivity.
Qed.

End MoreRegistration.

Lemma X9_witness :
  Server._func_dict
    (final (Server.register_function (fun _ => "") (Function "add" (fun a => Returns (VTuple a)))
              None (server0 false))) !! "add"
  = Some (Function "add" (fun a => Returns (VTuple a))).
Proof.
  apply (X9_registered_handler_serves_its_name (fun _ => "") (server0 false)
           (Function "add" (fun a => Returns (VTuple a))) None "add"
           (fun a => Returns (VTuple a))).
  - reflexivity.
  - reflexivity.
Defined.

(** ** The loop of [start] *)

Lemma serve_turn_goes_on self ev rest :
  Server._do_run self = true ->
  loop_goes_on self ev ->
  Server.serve (Server.Drain ev :: rest) self =
    after (trace (Server.drain_events ev self)) (Server.serve rest self).
Proof.
  intros Hrun Hgo. pose proof (drain_events_state self ev) as Hst.
  destruct (Server.drain_events ev self) as [[tr s] r] eqn:Hd.
  cbn in Hst. subst s. unfold loop_goes_on in Hgo. rewrite Hd in Hgo.
  destruct Hgo as [Hret | [e [Hraise Ht]]]; unfold answer in *; cbn in *.
  - subst r. apply (serve_goes_on _ _ _ _ _ Hrun Hd).
  - subst r. apply (serve_timeout _ _ _ _ _ _ Hrun Hd Ht).
Qed.

(** X11: the loop of [start] takes deliveries one at a time, in the order
    they arrive.  As long as each callback returns or the poll times out,
    the calls made are those of the first turn, then those of the second,
    and so on; the server object is not changed by any of them, and the
    loop then goes on with the rest of its script.  A poll that times out
    does nothing. *)
Theorem X11_deliveries_are_served_in_order
    (self : Server.t) (evs : list drain_event) (rest : list Server.event) :
  Server._do_run self = true ->
  Forall (loop_goes_on self) evs ->
  Server.serve (map Server.Drain evs ++ rest) self =
    after (flat_map (fun ev => trace (Server.drain_events ev self)) evs)
      (Server.serve rest self).
Proof.
  intros Hrun Hall. induction Hall as [|ev evs Hev _ IH].
  - cbn. symmetry. apply after_nil.
  - cbn [map app flat_map]. rewrite (serve_turn_goes_on self ev _ Hrun Hev), IH.
    unfold after. cbn. rewrite app_assoc. reflexivity.
Qed.

Lemma X11_witness :
  Server.serve
    (map Server.Drain
       [Delivered (RpcRequest "a.b.c" [VInt 1]) message0;
        Fails (socket_timeout, []);
        Delivered (RpcRequest "boom" []) message0] ++ [])
    (server0 false) =
  after
    (flat_map (fun ev => trace (Server.drain_events ev (server0 false)))
       [Delivered (RpcRequest "a.b.c" [VInt 1]) message0;
        Fails (socket_timeout, []);
        Delivered (RpcRequest "boom" []) message0])
    (Server.serve [] (server0 false)).
Proof.
  apply (X11_deliveries_are_served_in_order (server0 false)
           [Delivered (RpcRequest "a.b.c" [VInt 1]) message0;
            Fails (socket_timeout, []);
            Delivered (RpcRequest "boom" []) message0] []).
  - reflexivity.
  - constructor; [left; reflexivity|].
    constructor; [right; exists (socket_timeout, []); split; reflexivity|].
    constructor; [left; reflexivity|]. constructor.
Defined.

Lemma serve_not_running self script :
  Server._do_run self = false ->
  Server.serve script self =
    (teardown (Server._threaded self), Server.set_is_stopped true self, Return tt).
Proof.
  intros Hrun.
  assert (H : forall s, Server._do_run s = false ->
            ((if Server._threaded s then emit PublisherStop else ret tt) ;;;
             emit ConsumerCancel ;;; emit ConnectionClose ;;;
             emit PublishConnectionClose ;;;
             modify (Server.set_is_stopped true)) s =
            (teardown (Server._threaded s), Server.set_is_stopped true s, Return tt)).
  { intros s _. unfold bind, emit, modify, ret, teardown.
    destruct (Server._threaded s); reflexivity. }
  destruct script as [|[ev|] rest]; cbn [Server.serve]; rewrite Hrun; apply H; exact Hrun.
Qed.

Lemma serve_outcome script :
  forall self,
    let r := Server.serve script self in
    Server._func_dict (final r) = Server._func_dict self /\
    Server._threaded (final r) = Server._threaded self /\
    Server._result_queue (final r) = Server._result_queue self /\
    match answer r with
    | Return _ =>
        Server._is_stopped (final r) = true /\
        exists pre, trace r = pre ++ teardown (Server._threaded self)
    | Raise e =>
        is_Exception e = false /\ is_socket_timeout e = false /\
        Server._is_stopped (final r) = Server._is_stopped self
    | Blocked => Server._is_stopped (final r) = Server._is_stopped self
    end.
Proof.
  induction script as [|[ev|] rest IH]; intros self r; subst r.
  - destruct (Server._do_run self) eqn:Hrun.
    + cbn. rewrite Hrun. cbn. repeat split; reflexivity.
    + rewrite (serve_not_running self [] Hrun). cbn.
      repeat split; try reflexivity. exists []. reflexivity.
  - destruct (Server._do_run self) eqn:Hrun.
    + pose proof (drain_events_state self ev) as Hst.
      destruct (Server.drain_events ev self) as [[tr s] [[]|e|]] eqn:Hd;
        cbn in Hst; subst s.
      * rewrite (serve_goes_on _ _ rest _ _ Hrun Hd).
        destruct (IH self) as (H1 & H2 & H3 & H4).
        destruct (Server.serve rest self) as [[tr' s'] r'] eqn:Hs. cbn in *.
        repeat split; try assumption.
        destruct r' as [[]|e'|]; try assumption.
        destruct H4 as [H4 [pre Hpre]]. split; [exact H4|].
        exists (tr ++ pre). rewrite Hpre, app_assoc. reflexivity.
      * destruct (is_socket_timeout e) eqn:Ht.
        -- rewrite (serve_timeout _ _ rest _ _ _ Hrun Hd Ht).
           destruct (IH self) as (H1 & H2 & H3 & H4).
           destruct (Server.serve rest self) as [[tr' s'] r'] eqn:Hs. cbn in *.
           repeat split; try assumption.
           destruct r' as [[]|e'|]; try assumption.
           destruct H4 as [H4 [pre Hpre]]. split; [exact H4|].
           exists (tr ++ pre). rewrite Hpre, app_assoc. reflexivity.
        -- destruct (is_Exception e) eqn:He.
           ++ rewrite (serve_fault _ _ rest _ _ _ Hrun Hd Ht He). cbn.
              repeat split; try reflexivity. exists tr. reflexivity.
           ++ rewrite (serve_escape _ _ rest _ _ _ Hrun Hd Ht He). cbn.
              repeat split; try reflexivity; assumption.
      * exfalso.
        destruct ev as [b message|e]; [|discriminate].
        rewrite drain_events_delivered in Hd.
        destruct (Server._threaded self).
        -- destruct b as [v|fn fa|v]; try discriminate.
           revert Hd. unfold Server._on_request_threaded, bind, getitem, emit, ret, raise.
           cbn. destruct (properties message !! "correlation_id"); discriminate.
        -- destruct b as [v|fn fa|v]; try discriminate.
           revert Hd.
           unfold Server._on_request, Server.func_dict_getitem, Server.apply,
             bind, try_except, getitem, get, ret, raise, emit. cbn.
           destruct (properties message !! "correlation_id") as [cid|]; cbn;
             destruct (properties message !! "reply_to") as [rto|]; cbn;
             try discriminate;
             destruct (Server._func_dict self !! fn) as [[v|n code|code]|]; cbn;
             try discriminate;
             destruct (code fa) as [v|e]; cbn; try discriminate;
             destruct (is_Exception e); discriminate.
    + rewrite (serve_not_running self _ Hrun). cbn.
      repeat split; try reflexivity. exists []. reflexivity.
  - destruct (Server._do_run self) eqn:Hrun.
    + cbn [Server.serve]. rewrite Hrun.
      rewrite (serve_not_running (Server.set_do_run false self) rest eq_refl). cbn.
      repeat split; try reflexivity. exists []. reflexivity.
    + rewrite (serve_not_running self _ Hrun). cbn.
      repeat split; try reflexivity. exists []. reflexivity.
Qed.

(** X12: how [start] can end.  If it returns, the shutdown calls were the
    last thing it did and the server is marked stopped; while it is still
    in its loop the server is marked not stopped; and the only exceptions
    that leave it are those that do not derive from [Exception].  In every
    case the registry, the mode and the result queue are what they were:
    the serving thread itself never registers, never switches mode and
    never puts a result. *)
Theorem X12_start_outcomes (self : Server.t) (script : list Server.event) :
  let r := Server.start script self in
  Server._func_dict (final r) = Server._func_dict self /\
  Server._threaded (final r) = Server._threaded self /\
  Server._result_queue (final r) = Server._result_queue self /\
  (forall u, answer r = Return u ->
     Server._is_stopped (final r) = true /\
     exists pre, trace r = pre ++ teardown (Server._threaded self)) /\
  (answer r = Blocked -> Server._is_stopped (final r) = false) /\
  (forall e, answer r = Raise e ->
     is_Exception e = false /\ Server._is_stopped (final r) = false).
Proof.
  intros r. subst r. unfold Server.start, bind, modify, get, emit, ret. cbn.
  pose proof (serve_outcome script (Server.set_is_stopped false self)) as H.
  cbn in H. destruct H as (H1 & H2 & H3 & H4).
  destruct (Server._threaded self) eqn:Hthr; cbn;
    destruct (Server.serve script (Server.set_is_stopped false self))
      as [[tr s] [[]|e|]]; cbn in *;
    (split; [exact H1|]); (split; [exact H2|]); (split; [exact H3|]);
    (split; [|split]); try (intros; discriminate); try discriminate.
  - intros _ _. destruct H4 as [H4 [pre ->]]. split; [exact H4|].
    exists (PublisherStart :: pre). reflexivity.
  - intros e' [= <-]. destruct H4 as (Ha & _ & Hb). split; assumption.
  - intros _. exact H4.
  - intros _ _. destruct H4 as [H4 [pre ->]]. split; [exact H4|].
    exists pre. reflexivity.
  - intros e' [= <-]. destruct H4 as (Ha & _ & Hb). split; assumption.
  - intros _. exact H4.
Qed.

Lemma X12_witness :
  Server._is_stopped
    (final (Server.start [Server.Drain (Fails (socket_timeout, [])); Server.DoRunFalse]
              (server0 true))) = true /\
  exists pre,
    trace (Server.start [Server.Drain (Fails (socket_timeout, [])); Server.DoRunFalse]
             (server0 true)) = pre ++ teardown (Server._threaded (server0 true)).
Proof.
  apply (proj1 (proj2 (proj2 (proj2
           (X12_start_outcomes (server0 true)
              [Server.Drain (Fails (socket_timeout, [])); Server.DoRunFalse])))) tt).
  reflexivity.
Defined.

Lemma X10_witness :
  exists code,
    code_of (Function "add" (fun a => Returns (VTuple a))) = Some code.
Proof.
  apply (proj1 (proj2
           (X10_registry_holds_only_callables (fun _ => "") "srv" false
              [(Data (VInt 3), None);
               (Function "add" (fun a => Returns (VTuple a)), None)])) "add").
  reflexivity.
Defined.

(** X13: [stop] and the loop.  Once [_do_run] is cleared the loop of
    [start] ends at its next test: it drains nothing more, whatever is
    still to come, and runs the shutdown (publisher first in threaded
    mode, then consumer, then the two connections).  Nothing ever sets
    [_do_run] again, so a [start] on a server that was stopped, even one
    that was never started, where [stop] returns at once, drains no event
    and shuts down immediately.  [stop] called while the server runs does
    not return before the serving thread has marked the server stopped. *)
Theorem X13_stop_ends_the_loop_for_good
    (self : Server.t) (script rest : list Server.event) :
  (Server._do_run self = true ->
   Server.serve (Server.DoRunFalse :: rest) self =
     (teardown (Server._threaded self),
      Server.set_is_stopped true (Server.set_do_run false self), Return tt)) /\
  (Server._do_run self = false ->
   Server.start script self =
     ((if Server._threaded self then [PublisherStart] else [])
        ++ teardown (Server._threaded self),
      Server.set_is_stopped true self, Return tt)) /\
  Server._do_run (final (Server.stop self)) = false /\
  (Server._is_stopped self = true ->
   Server.stop self = ([], Server.set_do_run false self, Return tt)) /\
  (Server._is_stopped self = false ->
   Server.stop self = ([], Server.set_do_run false self, Blocked)).
Proof.
  split; [|split; [|split; [|split]]].
  - intros Hrun. cbn [Server.serve]. rewrite Hrun.
    apply (serve_not_running (Server.set_do_run false self) rest eq_refl).
  - intros Hrun. destruct self as [sid thr run stopped reg q]. cbn in Hrun. subst run.
    unfold Server.start, bind, modify, get, emit, ret.
    destruct thr; cbn; rewrite serve_not_running by reflexivity; reflexivity.
  - unfold Server.stop, bind, modify, get, ret, blocked. cbn.
    destruct (Server._is_stopped self); reflexivity.
  - intros Hs. unfold Server.stop, bind, modify, get, ret, blocked. cbn.
    rewrite Hs. reflexivity.
  - intros Hs. unfold Server.stop, bind, modify, get, ret, blocked. cbn.
    rewrite Hs. reflexivity.
Qed.

Lemma X13_witness :
  Server.start [Server.Drain (Delivered (RpcRequest "a.b.c" []) message0)]
    (final (Server.stop (Server.__init__ "srv" true))) =
    ([PublisherStart; PublisherStop; ConsumerCancel; ConnectionClose;
      PublishConnectionClose],
     Server.set_is_stopped true (final (Server.stop (Server.__init__ "srv" true))),
     Return tt).
Proof.
  apply (proj1 (proj2
           (X13_stop_ends_the_loop_for_good
              (final (Server.stop (Server.__init__ "srv" true)))
              [Server.Drain (Delivered (RpcRequest "a.b.c" []) message0)] []))).
  reflexivity.
Defined.

(** ** Deliveries that lack a property *)

(** X14: a request delivered without a [correlation_id] property is
    acknowledged but never answered, and it stops the server.  In serial
    mode the handler is not even called (the lookup of the property fails
    inside the [try] block), in threaded mode no worker is started; in both
    the [KeyError] of the later lookup leaves the callback, and the loop of
    [start] takes it for a fault and shuts down. *)
Theorem X14_request_without_correlation_id
    (self : Server.t) (func_name : string) (func_args : list value)
    (message : Message) (rest : list Server.event) :
  properties message !! "correlation_id" = None ->
  (exists key,
     Server._on_request (RpcRequest func_name func_args) message self =
       ([Ack message], self, Raise (KeyError, [VStr key]))) /\
  Server._on_request_threaded (RpcRequest func_name func_args) message self =
    ([Ack message], self, Raise (KeyError, [VStr "correlation_id"])) /\
  (Server._do_run self = true ->
   Server.serve
     (Server.Drain (Delivered (RpcRequest func_name func_args) message) :: rest) self =
     ([Ack message] ++ teardown (Server._threaded self),
      Server.set_is_stopped true self, Return tt)).
Proof.
  intros Hcid.
  assert (Hserial : exists key,
            Server._on_request (RpcRequest func_name func_args) message self =
              ([Ack message], self, Raise (KeyError, [VStr key]))).
  { unfold Server._on_request, bind, try_except, getitem, ret, raise, emit.
    rewrite Hcid. cbn.
    destruct (properties message !! "reply_to"); cbn; eexists; reflexivity. }
  assert (Hthreaded :
            Server._on_request_threaded (RpcRequest func_name func_args) message self =
              ([Ack message], self, Raise (KeyError, [VStr "correlation_id"]))).
  { unfold Server._on_request_threaded, bind, getitem, raise, emit.
    rewrite Hcid. reflexivity. }
  split; [exact Hserial|]. split; [exact Hthreaded|].
  intros Hrun. destruct Hserial as [key Hserial].
  assert (Hd : exists key',
            Server.drain_events (Delivered (RpcRequest func_name func_args) message) self
            = ([Ack message], self, Raise (KeyError, [VStr key']))).
  { rewrite drain_events_delivered. destruct (Server._threaded self); eauto. }
  destruct Hd as [key' Hd].
  rewrite (serve_fault _ _ rest _ _ _ Hrun Hd eq_refl eq_refl). reflexivity.
Qed.

Lemma X14_witness :
  Server._on_request_threaded (RpcRequest "a.b.c" []) {| properties := ∅ |}
    (server0 true) =
    ([Ack {| properties := ∅ |}], server0 true,
     Raise (KeyError, [VStr "correlation_id"])).
Proof.
  apply (X14_request_without_correlation_id (server0 true) "a.b.c" []
           {| properties := ∅ |} []).
  reflexivity.
Defined.

(** X15: a request delivered with a correlation id but without a
    [reply_to] property, whose handler returns: in serial mode the handler
    is called and the message acknowledged, then the lookup of [reply_to]
    raises [KeyError], nothing is published and the loop of [start] shuts
    the server down; in threaded mode the callback returns and the server
    goes on, but the worker, after calling the handler, dies of the same
    [KeyError] and puts nothing on the result queue. *)
Theorem X15_request_without_reply_to
    (self : Server.t) (func_name : string) (func_args : list value)
    (message : Message) (cid : value) (func : pyobj)
    (code : list value -> outcome) (v : value) (rest : list Server.event) :
  properties message !! "correlation_id" = Some cid ->
  properties message !! "reply_to" = None ->
  Server._func_dict self !! func_name = Some func ->
  code_of func = Some code ->
  code func_args = Returns v ->
  Server._on_request (RpcRequest func_name func_args) message self =
    ([Call func_name func_args; Ack message], self,
     Raise (KeyError, [VStr "reply_to"])) /\
  Server.exec_func func_name func_args message self =
    ([Call func_name func_args], self, Raise (KeyError, [VStr "reply_to"])) /\
  (Server._do_run self = true -> Server._threaded self = false ->
   Server.serve
     (Server.Drain (Delivered (RpcRequest func_name func_args) message) :: rest) self =
     ([Call func_name func_args; Ack message] ++ teardown false,
      Server.set_is_stopped true self, Return tt)) /\
  (Server._do_run self = true -> Server._threaded self = true ->
   Server.serve
     (Server.Drain (Delivered (RpcRequest func_name func_args) message) :: rest) self =
     after [Ack message; ThreadStart cid func_name func_args message]
       (Server.serve rest self)).
Proof.
  intros Hcid Hrto Hf Hc Hv.
  assert (Hserial :
            Server._on_request (RpcRequest func_name func_args) message self =
              ([Call func_name func_args; Ack message], self,
               Raise (KeyError, [VStr "reply_to"]))).
  { destruct func; simpl in Hc; [discriminate| |]; injection Hc as ->;
      run_method; reflexivity. }
  assert (Hworker :
            Server.exec_func func_name func_args message self =
              ([Call func_name func_args], self, Raise (KeyError, [VStr "reply_to"]))).
  { destruct func; simpl in Hc; [discriminate| |]; injection Hc as ->;
      run_method; reflexivity. }
  split; [exact Hserial|]. split; [exact Hworker|]. split.
  - intros Hrun Hthr.
    assert (Hd : Server.drain_events
                   (Delivered (RpcRequest func_name func_args) message) self
                 = ([Call func_name func_args; Ack message], self,
                    Raise (KeyError, [VStr "reply_to"])))
      by (rewrite drain_events_delivered, Hthr; exact Hserial).
    rewrite (serve_fault _ _ rest _ _ _ Hrun Hd eq_refl eq_refl), Hthr. reflexivity.
  - intros Hrun Hthr.
    assert (Hd : Server.drain_events
                   (Delivered (RpcRequest func_name func_args) message) self
                 = ([Ack message; ThreadStart cid func_name func_args message],
                    self, Return tt)).
    { rewrite drain_events_delivered, Hthr.
      apply on_request_threaded_acks. exact Hcid. }
    apply (serve_goes_on _ _ rest _ _ Hrun Hd).
Qed.

Lemma X15_witness :
  Server._on_request (RpcRequest "a.b.c" [VInt 1])
    {| properties := <["correlation_id" := VStr "id-1"]> ∅ |} (server0 false) =
    ([Call "a.b.c" [VInt 1];
      Ack {| properties := <["correlation_id" := VStr "id-1"]> ∅ |}],
     server0 false, Raise (KeyError, [VStr "reply_to"])).
Proof.
  apply (X15_request_without_reply_to (server0 false) "a.b.c" [VInt 1]
           {| properties := <["correlation_id" := VStr "id-1"]> ∅ |} (VStr "id-1")
           (Function "add" (fun args => Returns (VTuple args)))
           (fun args => Returns (VTuple args)) (VTuple [VInt 1]) []);
    reflexivity.
Defined.

(** ** The publisher thread without [stop] *)

Lemma publisher_drains q :
  forall flag_holder pub ps pb,
    Publisher.exec (two_steps_each q)
      {| Publisher.result_queue := q; Publisher.stop_it := false;
         Publisher.thread := Publisher.LoopTest; Publisher.stopper := flag_holder;
         Publisher.published := pub; Publisher.put_so_far := ps;
         Publisher.put_before_exit := pb |} =
      {| Publisher.result_queue := []; Publisher.stop_it := false;
         Publisher.thread := Publisher.LoopTest; Publisher.stopper := flag_holder;
         Publisher.published := pub ++ map Publisher.publish q;
         Publisher.put_so_far := ps; Publisher.put_before_exit := pb |}.
Proof.
  induction q as [|rs q IH]; intros flag_holder pub ps pb.
  - cbn. rewrite app_nil_r. reflexivity.
  - cbn [two_steps_each flat_map app].
    change (Publisher.exec (Publisher.ThreadStep :: Publisher.ThreadStep
                              :: flat_map (fun _ => [Publisher.ThreadStep; Publisher.ThreadStep]) q)
              ?w)
      with (Publisher.exec (two_steps_each q)
              (Publisher.run_step (Publisher.run_step w))).
    cbn [Publisher.run_step Publisher.thread Publisher.stop_it Publisher.result_queue
         Publisher.stopper Publisher.published Publisher.put_so_far
         Publisher.put_before_exit].
    rewrite IH. cbn [map]. rewrite <- app_assoc. reflexivity.
Qed.

(** X16: as long as [stop] is not asked for, the publisher thread empties
    the queue: from the head of its loop, two of its steps for each queued
    item publish all of them, in the order of the queue and once each, and
    leave the queue empty and the thread at the head of its loop again. *)
Theorem X16_publisher_drains_the_queue (w : Publisher.t) :
  Publisher.stop_it w = false ->
  Publisher.thread w = Publisher.LoopTest ->
  let w' := Publisher.exec (two_steps_each (Publisher.result_queue w)) w in
  Publisher.published w' =
    Publisher.published w ++ map Publisher.publish (Publisher.result_queue w) /\
  Publisher.result_queue w' = [] /\
  Publisher.thread w' = Publisher.LoopTest /\
  Publisher.stop_it w' = false.
Proof.
  intros Hflag Hthread. destruct w as [q flag th st pub ps pb]. cbn in *.
  subst flag th. rewrite publisher_drains. cbn. repeat split; reflexivity.
Qed.

Lemma X16_witness :
  Publisher.published
    (Publisher.exec (two_steps_each [result_set0; result_set0])
       (Publisher.__init__ [result_set0; result_set0])) =
    [] ++ map Publisher.publish [result_set0; result_set0].
Proof.
  apply (X16_publisher_drains_the_queue (Publisher.__init__ [result_set0; result_set0]));
    reflexivity.
Defined.

Lemma publisher_not_stopped_step w a :
  a <> Publisher.CallerStep ->
  publisher_not_stopped w ->
  Publisher.stopper (Publisher.step w a) = Publisher.stopper w /\
  publisher_not_stopped (Publisher.step w a).
Proof.
  intros Ha Hw. destruct w as [q flag th st pub ps pb].
  unfold publisher_not_stopped in *. cbn in *.
  destruct a as [rs| |]; [| |contradiction].
  - cbn. split; [reflexivity | exact Hw].
  - unfold Publisher.run_step. cbn.
    destruct th; [|destruct q|]; cbn; (split; [reflexivity|]); intros Hs;
      destruct (Hw Hs) as [Hflag Hth]; subst flag; cbn;
      try (split; [reflexivity | discriminate]).
    exfalso. apply Hth. reflexivity.
Qed.

(** X17: the publisher thread never ends by itself.  In every state it can
    reach, if the thread has left its loop then [stop] has been called; and
    under a schedule in which nobody calls [stop] the flag stays clear and
    the thread stays in its loop, whatever the workers put and whenever the
    queue runs empty. *)
Theorem X17_publisher_ends_only_on_stop
    (q : list ResultSet) (schedule : list Publisher.action) :
  let w := Publisher.exec schedule (Publisher.__init__ q) in
  (Publisher.thread w = Publisher.Exited ->
   Publisher.stopper w <> Publisher.NotCalled) /\
  (Forall (fun a => a <> Publisher.CallerStep) schedule ->
   Publisher.stopper w = Publisher.NotCalled /\
   Publisher.stop_it w = false /\
   Publisher.thread w <> Publisher.Exited).
Proof.
  intros w. split.
  - intros Hexit Hs.
    assert (Hinv : publisher_inv w) by apply publisher_inv_exec, publisher_inv_init.
    destruct Hinv as (_ & H2 & _ & _).
    assert (Hgen : forall sched w0,
              (Publisher.stopper w0 = Publisher.NotCalled ->
               Publisher.stop_it w0 = false) ->
              Publisher.stopper (Publisher.exec sched w0) = Publisher.NotCalled ->
              Publisher.stop_it (Publisher.exec sched w0) = false).
    { induction sched as [|a sched IH]; intros w0 Hw0 Hend; [apply Hw0, Hend|].
      change (Publisher.exec (a :: sched) w0)
        with (Publisher.exec sched (Publisher.step w0 a)) in *.
      apply IH; [|exact Hend].
      destruct w0 as [q0 flag th st pub ps pb]. cbn in *.
      destruct a as [rs| |]; cbn.
      - exact Hw0.
      - unfold Publisher.run_step. cbn.
        destruct th; cbn; try exact Hw0. destruct q0; cbn; exact Hw0.
      - unfold Publisher.stop_step. cbn.
        destruct st; cbn; try discriminate; try exact Hw0.
        destruct th; cbn; discriminate. }
    specialize (Hgen schedule (Publisher.__init__ q) (fun _ => eq_refl) Hs).
    specialize (H2 Hexit). fold w in Hgen. congruence.
  - intros Hall.
    assert (Hgen : forall sched w0,
              Forall (fun a => a <> Publisher.CallerStep) sched ->
              publisher_not_stopped w0 ->
              Publisher.stopper (Publisher.exec sched w0) = Publisher.stopper w0 /\
              publisher_not_stopped (Publisher.exec sched w0)).
    { induction sched as [|a sched IH]; intros w0 Hs Hw0; [split; [reflexivity | exact Hw0]|].
      inversion Hs as [|? ? Ha Hrest]; subst.
      change (Publisher.exec (a :: sched) w0)
        with (Publisher.exec sched (Publisher.step w0 a)).
      destruct (publisher_not_stopped_step w0 a Ha Hw0) as [Hst Hns].
      destruct (IH _ Hrest Hns) as [Hst' Hns']. split; [congruence | exact Hns']. }
    assert (Hinit : publisher_not_stopped (Publisher.__init__ q)).
    { intros _. cbn. split; [reflexivity | discriminate]. }
    destruct (Hgen schedule _ Hall Hinit) as [Hst Hns]. fold w in Hst, Hns.
    cbn in Hst. split; [exact Hst|]. apply Hns, Hst.
Qed.

Lemma X17_witness :
  Publisher.stopper
    (Publisher.exec
       [Publisher.ThreadStep; Publisher.ThreadStep; Publisher.WorkerPut result_set0;
        Publisher.ThreadStep; Publisher.ThreadStep]
       (Publisher.__init__ [])) = Publisher.NotCalled /\
  Publisher.stop_it
    (Publisher.exec
       [Publisher.ThreadStep; Publisher.ThreadStep; Publisher.WorkerPut result_set0;
        Publisher.ThreadStep; Publisher.ThreadStep]
       (Publisher.__init__ [])) = false /\
  Publisher.thread
    (Publisher.exec
       [Publisher.ThreadStep; Publisher.ThreadStep; Publisher.WorkerPut result_set0;
        Publisher.ThreadStep; Publisher.ThreadStep]
       (Publisher.__init__ [])) <> Publisher.Exited.
Proof.
  apply (proj2 (X17_publisher_ends_only_on_stop []
                  [Publisher.ThreadStep; Publisher.ThreadStep;
                   Publisher.WorkerPut result_set0;
                   Publisher.ThreadStep; Publisher.ThreadStep])).
  repeat constructor; discriminate.
Defined.
